(** * update-manifest: the release publisher of [main.go]

    A shallow embedding of [main.go]: the content addressing of the
    artifact (BLAKE2b-256, hex), the in-memory manifest with Go's nil maps
    and nil pointers, the ensure-path and merge steps of [main], and the
    order of the calls to the object store. *)

From Stdlib Require Import ZArith Lia Strings.Byte Strings.Ascii Strings.String.
From stdpp Require Import base option list sorting strings gmap.

Local Open Scope Z_scope.

(** ** BLAKE2b-256 ([blake2b.New256(nil)], RFC 7693, no key)

    64-bit words are [Z] with the wrap-around written out. *)
Module Blake2b.

Definition BlockSize : nat := 128.
Definition Size256 : nat := 32.

Definition mask64 : Z := 0xffffffffffffffff.

Definition add64 (a b : Z) : Z := Z.land (a + b) mask64.

(** [bits.RotateLeft64(x, -n)] *)
Definition rotr64 (x : Z) (n : Z) : Z :=
  Z.lor (Z.shiftr x n) (Z.land (Z.shiftl x (64 - n)) mask64).

Definition iv : list Z :=
  [ 0x6a09e667f3bcc908; 0xbb67ae8584caa73b; 0x3c6ef372fe94f82b;
    0xa54ff53a5f1d36f1; 0x510e527fade682d1; 0x9b05688c2b3e6c1f;
    0x1f83d9abfb41bd6b; 0x5be0cd19137e2179 ].

(** The message schedule; rounds 10 and 11 reuse rows 0 and 1. *)
Definition precomputed : list (list nat) :=
  ([ [ 0; 1; 2; 3; 4; 5; 6; 7; 8; 9; 10; 11; 12; 13; 14; 15 ];
    [ 14; 10; 4; 8; 9; 15; 13; 6; 1; 12; 0; 2; 11; 7; 5; 3 ];
    [ 11; 8; 12; 0; 5; 2; 15; 13; 10; 14; 3; 6; 7; 1; 9; 4 ];
    [ 7; 9; 3; 1; 13; 12; 11; 14; 2; 6; 5; 10; 4; 0; 15; 8 ];
    [ 9; 0; 5; 7; 2; 4; 10; 15; 14; 1; 11; 12; 6; 8; 3; 13 ];
    [ 2; 12; 6; 10; 0; 11; 8; 3; 4; 13; 7; 5; 15; 14; 1; 9 ];
    [ 12; 5; 1; 15; 14; 13; 4; 10; 0; 7; 6; 3; 9; 2; 8; 11 ];
    [ 13; 11; 7; 14; 12; 1; 3; 9; 5; 0; 15; 4; 8; 6; 2; 10 ];
    [ 6; 15; 14; 9; 11; 3; 0; 8; 12; 2; 13; 7; 1; 4; 10; 5 ];
    [ 10; 2; 8; 4; 7; 6; 1; 5; 15; 11; 9; 14; 3; 12; 13; 0 ];
    [ 0; 1; 2; 3; 4; 5; 6; 7; 8; 9; 10; 11; 12; 13; 14; 15 ];
    [ 14; 10; 4; 8; 9; 15; 13; 6; 1; 12; 0; 2; 11; 7; 5; 3 ] ])%nat.

Definition word (v : list Z) (i : nat) : Z := nth i v 0.

(** The quarter round on the working vector. *)
Definition mix (a b c d : nat) (x y : Z) (v : list Z) : list Z :=
  let va := add64 (add64 (word v a) (word v b)) x in
  let vd := rotr64 (Z.lxor (word v d) va) 32 in
  let vc := add64 (word v c) vd in
  let vb := rotr64 (Z.lxor (word v b) vc) 24 in
  let va := add64 (add64 va vb) y in
  let vd := rotr64 (Z.lxor vd va) 16 in
  let vc := add64 vc vd in
  let vb := rotr64 (Z.lxor vb vc) 63 in
  <[a:=va]> (<[b:=vb]> (<[c:=vc]> (<[d:=vd]> v))).

Definition round (m : list Z) (s : list nat) (v : list Z) : list Z :=
  let x (i : nat) := word m (nth i s 0%nat) in
  let v := mix 0 4 8 12 (x 0%nat) (x 1%nat) v in
  let v := mix 1 5 9 13 (x 2%nat) (x 3%nat) v in
  let v := mix 2 6 10 14 (x 4%nat) (x 5%nat) v in
  let v := mix 3 7 11 15 (x 6%nat) (x 7%nat) v in
  let v := mix 0 5 10 15 (x 8%nat) (x 9%nat) v in
  let v := mix 1 6 11 12 (x 10%nat) (x 11%nat) v in
  let v := mix 2 7 8 13 (x 12%nat) (x 13%nat) v in
  mix 3 4 9 14 (x 14%nat) (x 15%nat) v.

(** Little-endian load of eight bytes, and the sixteen words of a block. *)
Definition le64 (bs : list Z) : Z :=
  foldr (fun b acc => Z.lor b (Z.shiftl acc 8)) 0 bs.

Definition words_of_block (block : list Z) : list Z :=
  map (fun i : nat => le64 (take 8 (drop (8 * i) block))) (seq 0 16).

(** The compression of one block: [h] the chaining value, [t] the byte
    counter (below 2^64 for any file), [final] the last-block flag. *)
Definition hashBlocks (h : list Z) (t : Z) (final : bool) (block : list Z) : list Z :=
  let m := words_of_block block in
  let v := h ++ iv in
  let v := <[12%nat := Z.lxor (word v 12) (Z.land t mask64)]> v in
  let v := <[13%nat := Z.lxor (word v 13) (Z.land (Z.shiftr t 64) mask64)]> v in
  let v := if final then <[14%nat := Z.lxor (word v 14) mask64]> v else v in
  let v := foldl (fun v s => round m s v) v precomputed in
  map (fun i : nat => Z.lxor (Z.lxor (word h i) (word v i)) (word v (i + 8))) (seq 0 8).

(** The digest state of [blake2b.New256(nil)]: chaining value, counter and
    the buffered bytes. *)
Record digest := { h : list Z; c : Z; block : list Z }.

Definition Reset : digest :=
  {| h := <[0%nat := Z.lxor (word iv 0) (Z.lor (Z.of_nat Size256) (Z.shiftl 1 16 + Z.shiftl 1 24))]> iv;
     c := 0; block := [] |}.

(** [Write], a byte at a time: a full buffer is compressed only when more
    input arrives, so the last block stays buffered for [Sum]. *)
Definition Write1 (d : digest) (b : Z) : digest :=
  if decide (length (block d) = BlockSize)
  then {| h := hashBlocks (h d) (c d + Z.of_nat BlockSize) false (block d);
          c := c d + Z.of_nat BlockSize;
          block := [b] |}
  else {| h := h d; c := c d; block := block d ++ [b] |}.

Definition Write (d : digest) (p : list Z) : digest := foldl Write1 d p.

Definition le_bytes (w : Z) : list Z :=
  map (fun i : nat => Z.land (Z.shiftr w (8 * Z.of_nat i)) 0xff) (seq 0 8).

(** [Sum(nil)]: pad the buffer with zeros, compress it as the final block
    and serialise the first 32 bytes of the chaining value. *)
Definition finalize (d : digest) : list Z :=
  let n := length (block d) in
  let padded := block d ++ replicate (BlockSize - n) 0 in
  let h' := hashBlocks (h d) (c d + Z.of_nat n) true padded in
  take Size256 (flat_map le_bytes h').

Definition byte_of_Z (z : Z) : byte :=
  default Byte.x00 (Byte.of_N (Z.to_N z)).

Definition Z_of_byte (b : byte) : Z := Z.of_N (Byte.to_N b).

(** The digest of a whole stream, as [io.Copy(hasher, f); hasher.Sum(nil)]. *)
Definition Sum256 (data : list byte) : list byte :=
  map byte_of_Z (finalize (Write Reset (map Z_of_byte data))).

Arguments Sum256 : simpl never.

End Blake2b.

(** ** [hex.EncodeToString] *)
Module Hex.

Definition hextable : string := "0123456789abcdef".

Definition digit (n : N) : ascii :=
  default "0"%char (String.get (N.to_nat n) hextable).

Fixpoint EncodeToString (src : list byte) : string :=
  match src with
  | [] => EmptyString
  | v :: rest =>
      String (digit (N.shiftr (Byte.to_N v) 4))
        (String (digit (N.land (Byte.to_N v) 15)) (EncodeToString rest))
  end.

(** The value of a digit of [hextable] (as [fromHexChar] of the library
    reads it); used to state that the text determines the bytes. *)
Definition fromHexChar (c : ascii) : N :=
  default 0%N (N.of_nat <$> list_find (fun x => x = c) (list_ascii_of_string hextable) ≫= fun p => Some p.1).

End Hex.

Definition bytes_of (s : string) : list byte := list_byte_of_string s.


Local Open Scope string_scope.
Local Open Scope list_scope.

(** ** The manifest ([type Manifest], main.go:195-207)

    A Go map is [option (gmap _ _)]: [None] is the nil map, which reads as
    empty and panics on assignment. A pointer is an [option]: [None] is
    nil. Every pointer of a decoded manifest is freshly allocated and held
    by one map entry only, so a write through the pointer is the update of
    that entry. *)

(** [time.Time] as an instant: nanoseconds since the zero [Time]. *)
Definition Time : Type := Z.
Definition zeroTime : Time := 0%Z.

Record ArtifactEntry := {
  Binary : string;
  Checksum : string;
  Patch : string
}.

Record ChannelEntry := {
  Version : string;
  Build : Time;
  Artifact : option (gmap string (option ArtifactEntry))
}.

Record Manifest := {
  Channel : option (gmap string (option ChannelEntry))
}.

(** [var manifest Manifest] *)
Definition zeroManifest : Manifest := {| Channel := None |}.

(** [&struct{...}{}] *)
Definition zeroArtifact : ArtifactEntry :=
  {| Binary := EmptyString; Checksum := EmptyString; Patch := EmptyString |}.

(** [&struct{...}{Artifact: make(map[string]*struct{...})}] *)
Definition newChannel : ChannelEntry :=
  {| Version := EmptyString; Build := zeroTime; Artifact := Some ∅ |}.

(** ** Outcomes and effects

    A run of [main] is the list of its observable events, in order, and the
    way it ends: it returns (exit status 0), it calls [os.Exit], or the Go
    runtime panics (exit status 2). *)
Definition error : Type := string.

Inductive result (E A : Type) : Type :=
  | Ok (a : A)
  | Err (e : E).
Arguments Ok {E A} a.
Arguments Err {E A} e.

(** What [GetObject] reports when it fails. *)
Inductive S3Error : Type :=
  | NoSuchKey
  | S3Failure (e : error).

Inductive Event : Type :=
  | Stdout (line : string)
  | GetObjectCall (bucket objectName : string) (res : result S3Error (list byte))
  | PutObjectCall (bucket objectName : string) (data : list byte) (size : Z)
      (contentType : string) (err : option error).

Inductive Outcome (A : Type) : Type :=
  | Done (a : A)
  | Exit (code : Z)
  | Panic (msg : string).
Arguments Done {A} a.
Arguments Exit {A} code.
Arguments Panic {A} msg.

Definition Prog (A : Type) : Type := list Event * Outcome A.

#[global] Instance Prog_ret : MRet Prog := fun A a => ([], Done a).

#[global] Instance Prog_bind : MBind Prog := fun A B f m =>
  match m.2 with
  | Done a => (m.1 ++ (f a).1, (f a).2)
  | Exit code => (m.1, Exit code)
  | Panic msg => (m.1, Panic msg)
  end.

#[global] Instance result_ret {E} : MRet (result E) := fun A a => Ok a.

#[global] Instance result_bind {E} : MBind (result E) := fun A B f m =>
  match m with
  | Ok a => f a
  | Err e => Err e
  end.

Definition emit (ev : Event) : Prog unit := ([ev], Done tt).
Definition exit {A} (code : Z) : Prog A := ([], Exit code).
Definition panic {A} (msg : string) : Prog A := ([], Panic msg).

(** [fmt.Println(msg); os.Exit(1)] *)
Definition fatal {A} (msg : string) : Prog A := emit (Stdout msg) ;; exit 1.

Definition exitStatus {A} (o : Outcome A) : Z :=
  match o with
  | Done _ => 0
  | Exit code => code
  | Panic _ => 2
  end.

(** ** Go maps and pointers *)

(** [v, ok := m[k]]: a nil map reads as an empty one. *)
Definition index {V} (m : option (gmap string V)) (k : string) : option V :=
  g ← m; g !! k.

(** [m[k] = v]: assignment to an entry of a nil map panics. *)
Definition assign {V} (m : option (gmap string V)) (k : string) (v : V)
    : Prog (option (gmap string V)) :=
  match m with
  | Some g => mret (Some (<[k:=v]> g))
  | None => panic "assignment to entry in nil map"
  end.

(** [m[k]] for a map of pointers: a missing key reads as the nil pointer. *)
Definition pointer {V} (m : option (gmap string (option V))) (k : string) : option V :=
  mjoin (index m k).

(** [*p]: a nil pointer dereference panics. *)
Definition deref {V} (p : option V) : Prog V :=
  match p with
  | Some v => mret v
  | None => panic "invalid memory address or nil pointer dereference"
  end.

(** [manifest.Channel[k].<field> = ...]: a write through the pointer stored
    under [k]. *)
Definition updChannel (manifest : Manifest) (k : string)
    (f : ChannelEntry → Prog ChannelEntry) : Prog Manifest :=
  entry ← deref (pointer (Channel manifest) k);
  entry' ← f entry;
  mret {| Channel := <[k := Some entry']> <$> Channel manifest |}.

(** [entry.Artifact[k].<field> = ...] *)
Definition updArtifact (entry : ChannelEntry) (k : string)
    (f : ArtifactEntry → ArtifactEntry) : Prog ChannelEntry :=
  a ← deref (pointer (Artifact entry) k);
  mret {| Version := Version entry; Build := Build entry;
          Artifact := <[k := Some (f a)]> <$> Artifact entry |}.

(** ** The collaborators of [main] *)

Record FileInfo := { Size : Z; ModTime : Time }.

(** An open [*os.File]: its bytes, what [Stat] answers, and whether the
    read of [io.Copy] or the [Seek] fails. *)
Record File := {
  contents : list byte;
  Stat : result error FileInfo;
  copyErr : option error;
  seekErr : option error
}.

(** [*minio.Core] *)
Record Core := {
  GetObject : string → string → result S3Error (list byte);
  PutObject : string → string → list byte → Z → string → option error
}.

Record OS := {
  LookupEnv : string → option string;
  Open : string → result error File;
  NewCore : string → string → string → result error Core
}.

(** [encoding/json] and [time.Time.MarshalJSON], taken as given: the
    decoding of a document into a zero [Manifest], the JSON literal of a Go
    string, and the JSON text of a time. *)
Class EncodingJSON := {
  Decode : list byte → result error Manifest;
  quote : string → string;
  MarshalTime : Time → result error string
}.

(** ** [json.Marshal(manifest)]

    The document is first laid out as a tree, following the struct tags of
    [Manifest] (no field is [omitempty]; map keys are written in sorted
    order; nil maps and nil pointers are [null]), then rendered. *)
#[warnings="-register-all"] Inductive JSON : Type :=
  | JNull
  | JString (s : string)
  | JTime (t : Time)
  | JObject (members : list (string * JSON)).

Definition artifactJSON (a : ArtifactEntry) : JSON :=
  JObject [ ("binary", JString (Binary a));
            ("checksum", JString (Checksum a));
            ("patch", JString (Patch a)) ].

Definition pointerJSON {A} (f : A → JSON) (p : option A) : JSON :=
  match p with
  | Some a => f a
  | None => JNull
  end.

Definition keyLe {A} (x y : string * A) : Prop := String.le x.1 y.1.

#[global] Instance keyLe_dec {A} (x y : string * A) : Decision (keyLe x y).
Proof. unfold keyLe, String.le. apply _. Defined.

Definition mapJSON {A} (f : A → JSON) (m : option (gmap string (option A))) : JSON :=
  match m with
  | Some g =>
      JObject (merge_sort keyLe
                 ((fun kv : string * option A => (kv.1, pointerJSON f kv.2)) <$> map_to_list g))
  | None => JNull
  end.

Definition channelJSON (c : ChannelEntry) : JSON :=
  JObject [ ("version", JString (Version c));
            ("build", JTime (Build c));
            ("artifact", mapJSON artifactJSON (Artifact c)) ].

Definition manifestJSON (m : Manifest) : JSON :=
  JObject [ ("channel", mapJSON channelJSON (Channel m)) ].

(** The member of an object, when the value is an object that has it. *)
Definition member (name : string) (j : JSON) : option JSON :=
  match j with
  | JObject members => snd <$> List.find (fun kv => bool_decide (kv.1 = name)) members
  | _ => None
  end.

(** The value found by following member names from the root. *)
Definition lookupPath (path : list string) (j : JSON) : option JSON :=
  foldl (fun o name => o ≫= member name) (Some j) path.

Section marshal.
Context `{EncodingJSON}.

Fixpoint render (j : JSON) : result error string :=
  match j with
  | JNull => Ok "null"
  | JString s => Ok (quote s)
  | JTime t => MarshalTime t
  | JObject members =>
      let fix fields (l : list (string * JSON)) : result error (list string) :=
        match l with
        | [] => Ok []
        | (k, v) :: rest =>
            s ← render v;
            ss ← fields rest;
            Ok ((quote k +:+ ":" +:+ s) :: ss)
        end in
      ss ← fields members;
      Ok ("{" +:+ String.concat "," ss +:+ "}")
  end.

Definition Marshal (m : Manifest) : result error (list byte) :=
  s ← render (manifestJSON m);
  Ok (bytes_of s).
End marshal.

(** ** [main]

    The local variables of [main] once the setup (main.go:19-94) is over. *)
Record Config := {
  ACCOUNT_ID : string;
  ACCESS_KEY : string;
  ACCESS_SECRET : string;
  BUCKET : string;
  CHANNEL : string;
  APP_ID : string;
  VERSION : string;
  PLATFORM : string;
  EXECUTABLE_PATH : string;
  executable : File;
  executableStat : FileInfo;
  r2 : Core
}.

(** [v, exists := os.LookupEnv(name); if !exists { ...; os.Exit(1) }] *)
Definition lookupEnv (os : OS) (name : string) : Prog string :=
  match LookupEnv os name with
  | Some v => mret v
  | None => fatal ("E: " +:+ name +:+ " is not set")
  end.

(** [v, err := ...; if err != nil { fmt.Printf(msg + ": %v\n", err); os.Exit(1) }] *)
Definition check {A} (msg : string) (r : result error A) : Prog A :=
  match r with
  | Ok a => mret a
  | Err e => fatal (msg +:+ e)
  end.

(** main.go:19-94 *)
Definition setup (os : OS) : Prog Config :=
  AccountID ← lookupEnv os "ACCOUNT_ID";
  AccessKey ← lookupEnv os "ACCESS_KEY";
  AccessSecret ← lookupEnv os "ACCESS_SECRET";
  Bucket ← lookupEnv os "BUCKET";
  Channel ← lookupEnv os "CHANNEL";
  AppID ← lookupEnv os "APP_ID";
  Version ← lookupEnv os "VERSION";
  Platform ← lookupEnv os "PLATFORM";
  ExecutablePath ← lookupEnv os "EXECUTABLE_PATH";
  executable ← check "E: Failed to open executable: " (Open os ExecutablePath);
  executableStat ← check "E: Failed to stat executable: " (Stat executable);
  r2 ← check "E: Failed to connect to r2: "
          (NewCore os (AccountID +:+ ".r2.cloudflarestorage.com") AccessKey AccessSecret);
  mret {| ACCOUNT_ID := AccountID; ACCESS_KEY := AccessKey; ACCESS_SECRET := AccessSecret;
          BUCKET := Bucket; CHANNEL := Channel; APP_ID := AppID; VERSION := Version;
          PLATFORM := Platform; EXECUTABLE_PATH := ExecutablePath;
          executable := executable; executableStat := executableStat; r2 := r2 |}.

(** The variables that [main] reads, in the order it reads them. *)
Definition envNames : list string :=
  [ "ACCOUNT_ID"; "ACCESS_KEY"; "ACCESS_SECRET"; "BUCKET"; "CHANNEL"; "APP_ID";
    "VERSION"; "PLATFORM"; "EXECUTABLE_PATH" ].

(** What the process environment, the file system and the store client
    must provide for the locals [cfg] of [main]: each variable is set, the
    file opens and answers [Stat], and the client is built for the
    endpoint of the account. *)
Definition ready (os : OS) (cfg : Config) : Prop :=
  LookupEnv os "ACCOUNT_ID" = Some (ACCOUNT_ID cfg)
  ∧ LookupEnv os "ACCESS_KEY" = Some (ACCESS_KEY cfg)
  ∧ LookupEnv os "ACCESS_SECRET" = Some (ACCESS_SECRET cfg)
  ∧ LookupEnv os "BUCKET" = Some (BUCKET cfg)
  ∧ LookupEnv os "CHANNEL" = Some (CHANNEL cfg)
  ∧ LookupEnv os "APP_ID" = Some (APP_ID cfg)
  ∧ LookupEnv os "VERSION" = Some (VERSION cfg)
  ∧ LookupEnv os "PLATFORM" = Some (PLATFORM cfg)
  ∧ LookupEnv os "EXECUTABLE_PATH" = Some (EXECUTABLE_PATH cfg)
  ∧ Open os (EXECUTABLE_PATH cfg) = Ok (executable cfg)
  ∧ Stat (executable cfg) = Ok (executableStat cfg)
  ∧ NewCore os (ACCOUNT_ID cfg +:+ ".r2.cloudflarestorage.com") (ACCESS_KEY cfg)
      (ACCESS_SECRET cfg)
    = Ok (r2 cfg).

Definition manifestKey (cfg : Config) : string := APP_ID cfg +:+ "/manifest.json".

(** [fmt.Sprintf("%s/artifect/%s", AppID, checksum)] *)
Definition artifactKey (cfg : Config) (checksum : string) : string :=
  APP_ID cfg +:+ "/artifect/" +:+ checksum.

Definition getObject (cfg : Config) (objectName : string)
    : Prog (result S3Error (list byte)) :=
  let res := GetObject (r2 cfg) (BUCKET cfg) objectName in
  emit (GetObjectCall (BUCKET cfg) objectName res) ;; mret res.

Definition putObject (cfg : Config) (objectName : string) (data : list byte)
    (size : Z) (contentType : string) : Prog (option error) :=
  let err := PutObject (r2 cfg) (BUCKET cfg) objectName data size contentType in
  emit (PutObjectCall (BUCKET cfg) objectName data size contentType err) ;; mret err.

(** [if err != nil { fmt.Printf(msg + ": %v\n", err); os.Exit(1) }] *)
Definition checkErr (msg : string) (err : option error) : Prog unit :=
  match err with
  | None => mret tt
  | Some e => fatal (msg +:+ e)
  end.

Section main.
Context `{EncodingJSON}.

(** main.go:96-105: the lookup of the stored manifest. *)
Definition load (cfg : Config) : Prog Manifest :=
  res ← getObject cfg (manifestKey cfg);
  match res with
  | Ok reader => check "E: Failed to decode manifest: " (Decode reader)
  | Err _ => mret zeroManifest
  end.

(** main.go:107-118 *)
Definition ensureChannels (manifest : Manifest) : Manifest :=
  match Channel manifest with
  | None => {| Channel := Some ∅ |}
  | Some _ => manifest
  end.

(** main.go:120-137 *)
Definition ensureChannel (cfg : Config) (manifest : Manifest) : Prog Manifest :=
  match index (Channel manifest) (CHANNEL cfg) with
  | Some _ => mret manifest
  | None =>
      channels ← assign (Channel manifest) (CHANNEL cfg) (Some newChannel);
      mret {| Channel := channels |}
  end.

(** main.go:139-145 *)
Definition ensurePlatform (cfg : Config) (manifest : Manifest) : Prog Manifest :=
  entry ← deref (pointer (Channel manifest) (CHANNEL cfg));
  match index (Artifact entry) (PLATFORM cfg) with
  | Some _ => mret manifest
  | None =>
      updChannel manifest (CHANNEL cfg) (fun entry =>
        artifacts ← assign (Artifact entry) (PLATFORM cfg) (Some zeroArtifact);
        mret {| Version := Version entry; Build := Build entry; Artifact := artifacts |})
  end.

(** main.go:107-145 *)
Definition ensurePath (cfg : Config) (manifest : Manifest) : Prog Manifest :=
  manifest ← ensureChannel cfg (ensureChannels manifest);
  ensurePlatform cfg manifest.

(** [manifest.Channel[Channel].Artifact[Platform].Checksum], read. *)
Definition readChecksum (cfg : Config) (manifest : Manifest) : Prog string :=
  entry ← deref (pointer (Channel manifest) (CHANNEL cfg));
  a ← deref (pointer (Artifact entry) (PLATFORM cfg));
  mret (Checksum a).

(** main.go:147-193. The value returned is the in-memory manifest at the
    end of [main]. *)
Definition release (cfg : Config) (manifest : Manifest) : Prog Manifest :=
  (* 147 *)
  manifest ← updChannel manifest (CHANNEL cfg) (fun entry =>
    mret {| Version := VERSION cfg; Build := Build entry; Artifact := Artifact entry |});
  (* 150-154 *)
  checkErr "E: Failed to create checksum: " (copyErr (executable cfg)) ;;
  let sum := Blake2b.Sum256 (contents (executable cfg)) in
  (* 156 *)
  manifest ← updChannel manifest (CHANNEL cfg) (fun entry =>
    updArtifact entry (PLATFORM cfg) (fun a =>
      {| Binary := Binary a; Checksum := Hex.EncodeToString sum; Patch := Patch a |}));
  (* 158-162 *)
  checkErr "E: Failed to seek to beginning of executable: " (seekErr (executable cfg)) ;;
  (* 164-172 *)
  checksum ← readChecksum cfg manifest;
  err ← putObject cfg (artifactKey cfg checksum) (contents (executable cfg))
          (Size (executableStat cfg)) "application/octet-stream";
  checkErr "E: Failed to upload artifact: " err ;;
  emit (Stdout "I: Artifact uploaded successfully") ;;
  (* 174 *)
  checksum ← readChecksum cfg manifest;
  manifest ← updChannel manifest (CHANNEL cfg) (fun entry =>
    updArtifact entry (PLATFORM cfg) (fun a =>
      {| Binary := artifactKey cfg checksum; Checksum := Checksum a; Patch := Patch a |}));
  (* 175 *)
  manifest ← updChannel manifest (CHANNEL cfg) (fun entry =>
    mret {| Version := Version entry; Build := ModTime (executableStat cfg);
            Artifact := Artifact entry |});
  (* 177-181 *)
  marshaledManifest ← check "E: Failed to marshal manifest: " (Marshal manifest);
  (* 183-192 *)
  err ← putObject cfg (manifestKey cfg) marshaledManifest
          (Z.of_nat (length marshaledManifest)) "application/json";
  checkErr "E: Failed to upload manifest: " err ;;
  emit (Stdout "I: Manifest uploaded successfully") ;;
  mret manifest.

(** main.go:107-193 *)
Definition update (cfg : Config) (manifest : Manifest) : Prog Manifest :=
  manifest ← ensurePath cfg manifest;
  release cfg manifest.

Definition main (os : OS) : Prog Manifest :=
  cfg ← setup os;
  manifest ← load cfg;
  update cfg manifest.

End main.

(** ** The two halves of [release]

    Once the target path is there, [release] is the merge of the new
    release into the manifest, a pure step, and the transfer of the
    artifact and of the merged manifest. Both are proved equal to what
    [release] does (lemma [release_eq]). *)

(** What lines 156 and 174 leave under the target platform. *)
Definition releasedArtifact (cfg : Config) (a : ArtifactEntry) : ArtifactEntry :=
  let checksum := Hex.EncodeToString (Blake2b.Sum256 (contents (executable cfg))) in
  {| Binary := artifactKey cfg checksum; Checksum := checksum; Patch := Patch a |}.

(** The manifest after lines 147-175, from the channels [g], the platform
    entries [arts] of the target channel and the target entry [a]. *)
Definition merged (cfg : Config) (g : gmap string (option ChannelEntry))
    (arts : gmap string (option ArtifactEntry)) (a : ArtifactEntry) : Manifest :=
  {| Channel := Some (<[CHANNEL cfg :=
       Some {| Version := VERSION cfg;
               Build := ModTime (executableStat cfg);
               Artifact := Some (<[PLATFORM cfg := Some (releasedArtifact cfg a)]> arts) |}]> g) |}.

(** No nil is in the way of the target: the entry stored under the target
    channel, if there is one, is not a nil pointer and its artifact map is
    not nil. *)
Definition pathClear (cfg : Config) (manifest : Manifest) : Prop :=
  match index (Channel manifest) (CHANNEL cfg) with
  | None => True
  | Some None => False
  | Some (Some entry) => Artifact entry ≠ None
  end.

(** The channels that [ensureChannels] leaves in place. *)
Definition channelsOf (manifest : Manifest) : gmap string (option ChannelEntry) :=
  default ∅ (Channel manifest).

(** The platform entries of the target channel and the target entry, as
    [ensurePath] finds or creates them; [None] when a nil pointer or a nil
    map is in the way. *)
Definition targetPath (cfg : Config) (manifest : Manifest)
    : option (gmap string (option ArtifactEntry) * ArtifactEntry) :=
  match channelsOf manifest !! CHANNEL cfg with
  | None => Some (∅, zeroArtifact)
  | Some None => None
  | Some (Some entry) =>
      arts ← Artifact entry;
      match arts !! PLATFORM cfg with
      | None => Some (arts, zeroArtifact)
      | Some None => None
      | Some (Some a) => Some (arts, a)
      end
  end.

Section transfer.
Context `{EncodingJSON}.

(** The effects of lines 150-192, for the merged manifest [manifest]. *)
Definition transfer (cfg : Config) (manifest : Manifest) : Prog Manifest :=
  checkErr "E: Failed to create checksum: " (copyErr (executable cfg)) ;;
  checkErr "E: Failed to seek to beginning of executable: " (seekErr (executable cfg)) ;;
  err ← putObject cfg
          (artifactKey cfg (Hex.EncodeToString (Blake2b.Sum256 (contents (executable cfg)))))
          (contents (executable cfg)) (Size (executableStat cfg)) "application/octet-stream";
  checkErr "E: Failed to upload artifact: " err ;;
  emit (Stdout "I: Artifact uploaded successfully") ;;
  marshaledManifest ← check "E: Failed to marshal manifest: " (Marshal manifest);
  err ← putObject cfg (manifestKey cfg) marshaledManifest
          (Z.of_nat (length marshaledManifest)) "application/json";
  checkErr "E: Failed to upload manifest: " err ;;
  emit (Stdout "I: Manifest uploaded successfully") ;;
  mret manifest.

End transfer.

(** The two uploads of a run, with what [PutObject] answered. *)
Definition artifactPut (cfg : Config) (err : option error) : Event :=
  PutObjectCall (BUCKET cfg)
    (artifactKey cfg (Hex.EncodeToString (Blake2b.Sum256 (contents (executable cfg)))))
    (contents (executable cfg)) (Size (executableStat cfg)) "application/octet-stream" err.

Definition manifestPut (cfg : Config) (body : list byte) (err : option error) : Event :=
  PutObjectCall (BUCKET cfg) (manifestKey cfg) body (Z.of_nat (length body))
    "application/json" err.

(** The runs of [transfer]: where it stops, and what it has done by then. *)
Inductive TransferRun `{EncodingJSON} (cfg : Config) (manifest : Manifest)
    : Prog Manifest → Prop :=
  | run_local_failure msg :
      TransferRun cfg manifest ([Stdout msg], Exit 1)
  | run_artifact_failure e msg :
      TransferRun cfg manifest ([artifactPut cfg (Some e); Stdout msg], Exit 1)
  | run_marshal_failure e msg :
      Marshal manifest = Err e →
      TransferRun cfg manifest
        ([artifactPut cfg None; Stdout "I: Artifact uploaded successfully"; Stdout msg], Exit 1)
  | run_manifest_failure body e msg :
      Marshal manifest = Ok body →
      TransferRun cfg manifest
        ([artifactPut cfg None; Stdout "I: Artifact uploaded successfully";
          manifestPut cfg body (Some e); Stdout msg], Exit 1)
  | run_success body :
      Marshal manifest = Ok body →
      TransferRun cfg manifest
        ([artifactPut cfg None; Stdout "I: Artifact uploaded successfully";
          manifestPut cfg body None; Stdout "I: Manifest uploaded successfully"],
         Done manifest).

(** The one [GetObject] call of a run, with its answer. *)
Definition getCall (cfg : Config) : Event :=
  GetObjectCall (BUCKET cfg) (manifestKey cfg)
    (GetObject (r2 cfg) (BUCKET cfg) (manifestKey cfg)).

(** ** Observations on a run *)

Definition isUpload (contentType : string) (ev : Event) : bool :=
  match ev with
  | PutObjectCall _ _ _ _ ct _ => bool_decide (ct = contentType)
  | _ => false
  end.

Definition isPut (ev : Event) : bool :=
  match ev with
  | PutObjectCall _ _ _ _ _ _ => true
  | _ => false
  end.

Definition artifactUploads (tr : list Event) : list Event :=
  List.filter (isUpload "application/octet-stream") tr.

Definition manifestUploads (tr : list Event) : list Event :=
  List.filter (isUpload "application/json") tr.

(** Every call to [PutObject] of a run. *)
Definition uploads (tr : list Event) : list Event := List.filter isPut tr.

(** The entry of the target (channel, platform) of a run, when it is there
    and no pointer on the way is nil. *)
Definition target (cfg : Config) (manifest : Manifest) : option ArtifactEntry :=
  entry ← pointer (Channel manifest) (CHANNEL cfg);
  pointer (Artifact entry) (PLATFORM cfg).

(** The platform entries of a channel, as [Artifact[p]] reads them. *)
Definition platformOf (manifest : Manifest) (c p : string) : option (option ArtifactEntry) :=
  entry ← pointer (Channel manifest) c;
  index (Artifact entry) p.

Definition lowerHex (c : ascii) : bool :=
  bool_decide (In c (list_ascii_of_string Hex.hextable)).

(** ** A concrete world for the examples *)
Module Demo.

Definition dq : string := String "034"%char EmptyString.

(** JSON text written with single quotes for the double ones. *)
Fixpoint text (s : string) : string :=
  match s with
  | EmptyString => EmptyString
  | String c rest => String (if Ascii.eqb c "'" then "034"%char else c) (text rest)
  end.

Definition mtime : Time := 63839664000000000000%Z.

(** [encoding/json] on the documents of the examples: every stored document
    decodes to [doc]; the strings involved need no escape; the text of
    [mtime] is the only one known. *)
Definition json (doc : result error Manifest) : EncodingJSON :=
  {| Decode := fun _ => doc;
     quote := fun s => dq +:+ s +:+ dq;
     MarshalTime := fun t =>
       if decide (t = mtime) then Ok (dq +:+ "2024-01-01T00:00:00Z" +:+ dq)
       else Err "Time.MarshalJSON: not a time of the examples" |}.

Definition environ : list (string * string) :=
  [ ("ACCOUNT_ID", "acct"); ("ACCESS_KEY", "key"); ("ACCESS_SECRET", "secret");
    ("BUCKET", "updates"); ("CHANNEL", "stable"); ("APP_ID", "app1");
    ("VERSION", "1.0.0"); ("PLATFORM", "linux-x64"); ("EXECUTABLE_PATH", "app.bin") ].

Definition file : File :=
  {| contents := bytes_of "hello";
     Stat := Ok {| Size := 5; ModTime := mtime |};
     copyErr := None; seekErr := None |}.

(** A store that answers [fetch] to every [GetObject] and [put] to every
    [PutObject]. *)
Definition store (fetch : result S3Error (list byte)) (put : string → option error) : Core :=
  {| GetObject := fun _ _ => fetch;
     PutObject := fun _ _ _ _ contentType => put contentType |}.

Definition os (fetch : result S3Error (list byte)) (put : string → option error) : OS :=
  {| LookupEnv := fun name => snd <$> List.find (fun kv => bool_decide (kv.1 = name)) environ;
     Open := fun _ => Ok file;
     NewCore := fun _ _ _ => Ok (store fetch put) |}.

Definition cfg (fetch : result S3Error (list byte)) (put : string → option error) : Config :=
  {| ACCOUNT_ID := "acct"; ACCESS_KEY := "key"; ACCESS_SECRET := "secret";
     BUCKET := "updates"; CHANNEL := "stable"; APP_ID := "app1"; VERSION := "1.0.0";
     PLATFORM := "linux-x64"; EXECUTABLE_PATH := "app.bin";
     executable := file; executableStat := {| Size := 5; ModTime := mtime |};
     r2 := store fetch put |}.

Definition allOk : string → option error := fun _ => None.

(** No stored manifest; a store that cannot be reached; a stored document. *)
Definition fresh : OS := os (Err NoSuchKey) allOk.
Definition freshCfg : Config := cfg (Err NoSuchKey) allOk.
Definition unreachable : OS := os (Err (S3Failure "connection reset by peer")) allOk.
Definition unreachableCfg : Config := cfg (Err (S3Failure "connection reset by peer")) allOk.
Definition stored : OS := os (Ok (bytes_of "{")) allOk.
Definition storedCfg : Config := cfg (Ok (bytes_of "{")) allOk.

(** A store that refuses the manifest, and a file that cannot be read. *)
Definition refuseManifest : string → option error := fun contentType =>
  if decide (contentType = "application/json") then Some "503 Slow Down" else None.
Definition refusedCfg : Config := cfg (Err NoSuchKey) refuseManifest.

Definition unreadableCfg : Config :=
  {| ACCOUNT_ID := "acct"; ACCESS_KEY := "key"; ACCESS_SECRET := "secret";
     BUCKET := "updates"; CHANNEL := "stable"; APP_ID := "app1"; VERSION := "1.0.0";
     PLATFORM := "linux-x64"; EXECUTABLE_PATH := "app.bin";
     executable := {| contents := bytes_of "hello";
                      Stat := Ok {| Size := 5; ModTime := mtime |};
                      copyErr := Some "read app.bin: input/output error";
                      seekErr := None |};
     executableStat := {| Size := 5; ModTime := mtime |};
     r2 := store (Err NoSuchKey) allOk |}.

(** A publish of the same file to another channel. *)
Definition betaCfg : Config :=
  {| ACCOUNT_ID := "acct"; ACCESS_KEY := "key"; ACCESS_SECRET := "secret";
     BUCKET := "updates"; CHANNEL := "beta"; APP_ID := "app1"; VERSION := "2.0.0";
     PLATFORM := "linux-x64"; EXECUTABLE_PATH := "app.bin";
     executable := file; executableStat := {| Size := 5; ModTime := mtime |};
     r2 := store (Err NoSuchKey) allOk |}.

(** The decoder that rejects the stored document, and the one that reads
    [doc] from it. *)
Definition rejecting : EncodingJSON := json (Err "unexpected end of JSON input").
Definition reading (doc : Manifest) : EncodingJSON := json (Ok doc).

(** [{"channel":{"stable":{"version":"0.9.0","build":...}}}]: the channel
    is there, its [artifact] member is missing. *)
Definition noArtifacts : Manifest :=
  {| Channel := Some {[ "stable" := Some {| Version := "0.9.0"; Build := mtime; Artifact := None |} ]} |}.

(** A manifest with a sibling platform under [stable] and a sibling channel. *)
Definition siblings : Manifest :=
  {| Channel := Some
       (<[ "stable" := Some {| Version := "0.9.0"; Build := mtime;
                               Artifact := Some {[ "darwin-arm64" :=
                                 Some {| Binary := "app1/artifect/aa"; Checksum := "aa";
                                         Patch := "app1/patch/aa" |} ]} |} ]>
        {[ "beta" := Some {| Version := "2.0.0-rc1"; Build := mtime;
                             Artifact := Some {[ "linux-x64" :=
                               Some {| Binary := "app1/artifect/bb"; Checksum := "bb";
                                       Patch := "app1/patch/bb" |} ]} |} ]}) |}.

(** [{"channel":{"stable":{...,"artifact":{"linux-x64":null}}}}] *)
Definition nullPlatform : Manifest :=
  {| Channel := Some {[ "stable" :=
       Some {| Version := "0.9.0"; Build := mtime;
               Artifact := Some {[ "linux-x64" := None ]} |} ]} |}.

(** A manifest that already has the target entry, with a patch. *)
Definition published : Manifest :=
  {| Channel := Some {[ "stable" :=
       Some {| Version := "0.9.0"; Build := mtime;
               Artifact := Some {[ "linux-x64" :=
                 Some {| Binary := "app1/artifect/cc"; Checksum := "cc";
                         Patch := "app1/patch/cc" |} ]} |} ]} |}.

End Demo.

(** * Properties *)

(** ** The monad of runs *)

Lemma bind_ret_l {A B} (a : A) (f : A → Prog B) : (mret a ≫= f) = f a.
Proof. unfold mbind, mret, Prog_bind, Prog_ret. simpl. by destruct (f a). Qed.

Lemma Prog_bind_ret {A B} (a : A) (f : A → Prog B) : Prog_bind A B f ([], Done a) = f a.
Proof. exact (bind_ret_l a f). Qed.

Lemma bind_ext {A B} (m : Prog A) (f g : A → Prog B) :
  (∀ a, f a = g a) → (m ≫= f) = (m ≫= g).
Proof.
  intros Hfg. unfold mbind, Prog_bind. destruct m as [t [a| |]]; simpl; [|done..].
  by rewrite Hfg.
Qed.

Lemma bind_assoc {A B C} (m : Prog A) (f : A → Prog B) (g : B → Prog C) :
  ((m ≫= f) ≫= g) = (m ≫= fun a => f a ≫= g).
Proof.
  unfold mbind, Prog_bind. destruct m as [t [a| |]]; simpl; [|done..].
  destruct (f a) as [t' [b| |]]; simpl; [|done..].
  by rewrite app_assoc.
Qed.

Lemma bind_panic {A B} (msg : string) (f : A → Prog B) : (panic msg ≫= f) = panic msg.
Proof. reflexivity. Qed.

Lemma bind_fatal {A B} (msg : string) (f : A → Prog B) : (fatal msg ≫= f) = fatal msg.
Proof. reflexivity. Qed.

(** ** Writes through the pointers of the manifest *)

Lemma updChannel_eq g k e (f : ChannelEntry → Prog ChannelEntry) :
  g !! k = Some (Some e) →
  updChannel {| Channel := Some g |} k f
  = (e' ← f e; mret {| Channel := Some (<[k := Some e']> g) |}).
Proof.
  intros Hk. unfold updChannel, pointer, index. simpl. rewrite Hk. simpl.
  by rewrite Prog_bind_ret.
Qed.

Lemma updArtifact_eq e arts k a (f : ArtifactEntry → ArtifactEntry) :
  Artifact e = Some arts → arts !! k = Some (Some a) →
  updArtifact e k f
  = mret {| Version := Version e; Build := Build e;
            Artifact := Some (<[k := Some (f a)]> arts) |}.
Proof.
  intros He Hk. unfold updArtifact, pointer, index. rewrite He. simpl. rewrite Hk. simpl.
  by rewrite Prog_bind_ret.
Qed.

Lemma readChecksum_eq `{EncodingJSON} cfg g e arts a :
  g !! CHANNEL cfg = Some (Some e) → Artifact e = Some arts →
  arts !! PLATFORM cfg = Some (Some a) →
  readChecksum cfg {| Channel := Some g |} = mret (Checksum a).
Proof.
  intros Hc He Hp. unfold readChecksum, pointer, index. simpl. rewrite Hc. simpl.
  rewrite Prog_bind_ret, He. simpl. rewrite Hp. simpl. by rewrite Prog_bind_ret.
Qed.

(** ** [release] is the merge followed by the transfer *)

Ltac lookup_done := rewrite ?lookup_insert_eq; reflexivity || eassumption.

Ltac step_channel e :=
  rewrite (updChannel_eq _ _ e) by lookup_done;
  rewrite ?insert_insert_eq.

Ltac fields := cbn [Version Build Artifact Binary Checksum Patch].

Lemma release_eq `{EncodingJSON} cfg g e arts a :
  g !! CHANNEL cfg = Some (Some e) → Artifact e = Some arts →
  arts !! PLATFORM cfg = Some (Some a) →
  release cfg {| Channel := Some g |} = transfer cfg (merged cfg g arts a).
Proof.
  intros Hc He Hp. unfold release, transfer.
  (* 147 *)
  step_channel e. rewrite !bind_ret_l.
  apply bind_ext; intros _.
  (* 156 *)
  step_channel {| Version := VERSION cfg; Build := Build e; Artifact := Artifact e |}.
  rewrite (updArtifact_eq _ arts _ a) by lookup_done. rewrite !bind_ret_l. fields.
  apply bind_ext; intros _.
  (* 164 *)
  set (sum := Hex.EncodeToString _).
  set (a1 := {| Binary := Binary a; Checksum := sum; Patch := Patch a |}).
  set (e1 := {| Version := VERSION cfg; Build := Build e;
                Artifact := Some (<[PLATFORM cfg := Some a1]> arts) |}).
  rewrite !(readChecksum_eq cfg _ e1 (<[PLATFORM cfg := Some a1]> arts) a1)
    by lookup_done.
  rewrite bind_ret_l. fields.
  apply bind_ext; intros err.
  apply bind_ext; intros _.
  apply bind_ext; intros _.
  (* 174, 175 *)
  rewrite bind_ret_l.
  step_channel e1.
  rewrite (updArtifact_eq _ (<[PLATFORM cfg := Some a1]> arts) _ a1) by lookup_done.
  rewrite !bind_ret_l, insert_insert_eq. fields.
  erewrite updChannel_eq by lookup_done.
  rewrite !bind_ret_l. subst e1 a1. fields. rewrite !insert_insert_eq.
  reflexivity.
Qed.

Lemma updArtifact_nil e arts k (f : ArtifactEntry → ArtifactEntry) :
  Artifact e = Some arts → arts !! k = Some None →
  updArtifact e k f = panic "invalid memory address or nil pointer dereference".
Proof.
  intros He Hk. unfold updArtifact, pointer, index. rewrite He. simpl. rewrite Hk.
  reflexivity.
Qed.

Lemma release_nil_platform `{EncodingJSON} cfg g e arts :
  g !! CHANNEL cfg = Some (Some e) → Artifact e = Some arts →
  arts !! PLATFORM cfg = Some None →
  release cfg {| Channel := Some g |}
  = (checkErr "E: Failed to create checksum: " (copyErr (executable cfg)) ;;
     panic "invalid memory address or nil pointer dereference").
Proof.
  intros Hc He Hp. unfold release.
  step_channel e. rewrite !bind_ret_l.
  apply bind_ext; intros _.
  erewrite updChannel_eq by lookup_done.
  rewrite (updArtifact_nil _ arts) by lookup_done.
  reflexivity.
Qed.

(** ** [ensurePath], case by case *)

Lemma ensureChannels_eq manifest :
  ensureChannels manifest = {| Channel := Some (channelsOf manifest) |}.
Proof. by destruct manifest as [[g|]]. Qed.

Lemma ensurePath_new_channel cfg manifest :
  channelsOf manifest !! CHANNEL cfg = None →
  ensurePath cfg manifest
  = mret {| Channel := Some (<[CHANNEL cfg :=
              Some {| Version := EmptyString; Build := zeroTime;
                      Artifact := Some (<[PLATFORM cfg := Some zeroArtifact]> ∅) |}]>
              (channelsOf manifest)) |}.
Proof.
  intros Hc. unfold ensurePath. rewrite ensureChannels_eq.
  unfold ensureChannel, index, assign. simpl. rewrite Hc. simpl.
  rewrite !Prog_bind_ret. unfold ensurePlatform, pointer, index. simpl.
  rewrite lookup_insert_eq. simpl. rewrite Prog_bind_ret. simpl.
  rewrite lookup_empty.
  erewrite updChannel_eq by lookup_done.
  unfold assign, newChannel. fields. rewrite !bind_ret_l, insert_insert_eq. reflexivity.
Qed.

Lemma ensurePath_nil_channel cfg manifest :
  channelsOf manifest !! CHANNEL cfg = Some None →
  ensurePath cfg manifest = panic "invalid memory address or nil pointer dereference".
Proof.
  intros Hc. unfold ensurePath. rewrite ensureChannels_eq.
  unfold ensureChannel, index. simpl. rewrite Hc. simpl.
  rewrite Prog_bind_ret. unfold ensurePlatform, pointer, index. simpl.
  rewrite Hc. reflexivity.
Qed.

Lemma ensurePath_found cfg manifest e :
  channelsOf manifest !! CHANNEL cfg = Some (Some e) →
  ensurePath cfg manifest
  = match Artifact e with
    | None => panic "assignment to entry in nil map"
    | Some arts =>
        match arts !! PLATFORM cfg with
        | Some _ => mret {| Channel := Some (channelsOf manifest) |}
        | None =>
            mret {| Channel := Some (<[CHANNEL cfg :=
                      Some {| Version := Version e; Build := Build e;
                              Artifact := Some (<[PLATFORM cfg := Some zeroArtifact]> arts) |}]>
                      (channelsOf manifest)) |}
        end
    end.
Proof.
  intros Hc. unfold ensurePath. rewrite ensureChannels_eq.
  unfold ensureChannel, index. simpl. rewrite Hc. simpl.
  rewrite Prog_bind_ret. unfold ensurePlatform, pointer, index. simpl.
  rewrite Hc. simpl. rewrite Prog_bind_ret.
  destruct (Artifact e) as [arts|] eqn:He; simpl.
  - destruct (arts !! PLATFORM cfg) as [p|] eqn:Hp; [done|].
    erewrite updChannel_eq by lookup_done.
    rewrite He. unfold assign. by rewrite !bind_ret_l.
  - erewrite updChannel_eq by lookup_done.
    rewrite He. reflexivity.
Qed.

(** ** [update], case by case *)

Lemma update_found `{EncodingJSON} cfg manifest arts a :
  targetPath cfg manifest = Some (arts, a) →
  update cfg manifest = transfer cfg (merged cfg (channelsOf manifest) arts a).
Proof.
  unfold targetPath, update. intros Hp.
  destruct (channelsOf manifest !! CHANNEL cfg) as [[e|]|] eqn:Hc; [|done|].
  - rewrite (ensurePath_found _ _ e) by done.
    destruct (Artifact e) as [arts'|] eqn:He; [simpl in Hp|done].
    destruct (arts' !! PLATFORM cfg) as [[a'|]|] eqn:Hpl; simplify_eq.
    + rewrite bind_ret_l. by apply (release_eq _ _ e).
    + rewrite bind_ret_l.
      erewrite release_eq by lookup_done.
      unfold merged. by rewrite !insert_insert_eq.
  - simplify_eq. rewrite ensurePath_new_channel by done. rewrite bind_ret_l.
    erewrite release_eq by lookup_done.
    unfold merged. by rewrite !insert_insert_eq.
Qed.

Lemma update_not_found `{EncodingJSON} cfg manifest :
  targetPath cfg manifest = None →
  (∃ msg, update cfg manifest = panic msg)
  ∨ update cfg manifest
    = (checkErr "E: Failed to create checksum: " (copyErr (executable cfg)) ;;
       panic "invalid memory address or nil pointer dereference").
Proof.
  unfold targetPath, update. intros Hp.
  destruct (channelsOf manifest !! CHANNEL cfg) as [[e|]|] eqn:Hc; [| |done].
  - rewrite (ensurePath_found _ _ e) by done.
    destruct (Artifact e) as [arts|] eqn:He; [simpl in Hp|by left; eexists].
    destruct (arts !! PLATFORM cfg) as [[a|]|] eqn:Hpl; simplify_eq.
    right. rewrite bind_ret_l. by apply (release_nil_platform _ _ e arts).
  - left. rewrite ensurePath_nil_channel by done. by eexists.
Qed.

(** ** The runs of [transfer] *)

Ltac run_prog :=
  cbv [mbind mret Prog_bind Prog_ret emit checkErr check fatal exit panic fst snd app].

Lemma transfer_run `{EncodingJSON} cfg manifest :
  TransferRun cfg manifest (transfer cfg manifest).
Proof.
  unfold transfer, putObject.
  destruct (copyErr (executable cfg)); [run_prog; apply run_local_failure|].
  destruct (seekErr (executable cfg)); [run_prog; apply run_local_failure|].
  destruct (PutObject _ _ _ _ _ _) as [e|] eqn:Hart;
    [run_prog; apply run_artifact_failure|].
  destruct (Marshal manifest) as [body|e] eqn:Hm;
    [|run_prog; by eapply run_marshal_failure].
  destruct (PutObject (r2 cfg) (BUCKET cfg) (manifestKey cfg) body
              (Z.of_nat (length body)) "application/json") as [e|] eqn:Hman.
  - run_prog. rewrite Hman. by apply run_manifest_failure.
  - run_prog. rewrite Hman. by apply run_success.
Qed.

(** ** [setup] and [load] *)

Lemma lookupEnv_cases os name :
  (∃ v, LookupEnv os name = Some v ∧ lookupEnv os name = mret v)
  ∨ (∃ msg, lookupEnv os name = fatal msg).
Proof. unfold lookupEnv. destruct (LookupEnv os name); eauto. Qed.

Lemma check_cases {A} msg (r : result error A) :
  (∃ a, r = Ok a ∧ check msg r = mret a) ∨ (∃ msg', check msg r = fatal msg').
Proof. destruct r; simpl; eauto. Qed.

Lemma setup_cases os :
  (∃ cfg, setup os = ([], Done cfg)) ∨ (∃ msg, setup os = ([Stdout msg], Exit 1)).
Proof.
  unfold setup.
  repeat lazymatch goal with
  | |- context [lookupEnv os ?name ≫= _] =>
      destruct (lookupEnv_cases os name) as [(? & _ & ->)|[? ->]];
        [rewrite bind_ret_l|by right; eexists]
  | |- context [check ?msg ?r ≫= _] =>
      destruct (check_cases msg r) as [(? & _ & ->)|[? ->]];
        [rewrite bind_ret_l|by right; eexists]
  end.
  left. by eexists.
Qed.

Lemma setup_Done os tr cfg : setup os = (tr, Done cfg) → tr = [].
Proof. destruct (setup_cases os) as [[? ->]|[? ->]]; congruence. Qed.

Lemma load_eq `{EncodingJSON} cfg :
  load cfg
  = (emit (GetObjectCall (BUCKET cfg) (manifestKey cfg)
             (GetObject (r2 cfg) (BUCKET cfg) (manifestKey cfg))) ;;
     match GetObject (r2 cfg) (BUCKET cfg) (manifestKey cfg) with
     | Ok reader => check "E: Failed to decode manifest: " (Decode reader)
     | Err _ => mret zeroManifest
     end).
Proof. unfold load, getObject. rewrite bind_assoc. apply bind_ext; intros []. apply bind_ret_l. Qed.

Lemma main_eq `{EncodingJSON} os tr cfg :
  setup os = (tr, Done cfg) →
  main os = (manifest ← load cfg; update cfg manifest).
Proof.
  intros Hs. pose proof (setup_Done _ _ _ Hs) as ->.
  unfold main. rewrite Hs. apply (bind_ret_l cfg).
Qed.

Lemma main_setup_failure `{EncodingJSON} os :
  (∀ cfg, setup os ≠ ([], Done cfg)) → ∃ msg, main os = ([Stdout msg], Exit 1).
Proof.
  intros Hs. destruct (setup_cases os) as [[cfg Hcfg]|[msg Hmsg]]; [by destruct (Hs cfg)|].
  exists msg. unfold main. by rewrite Hmsg.
Qed.

(** ** The layout of the marshalled manifest *)

Lemma find_key_Some {A} (l : list (string * A)) k v :
  NoDup l.*1 → (k, v) ∈ l →
  List.find (fun kv => bool_decide (kv.1 = k)) l = Some (k, v).
Proof.
  induction l as [|[k' v'] l IH]; simpl; intros Hnd Hin.
  - by apply elem_of_nil in Hin.
  - apply NoDup_cons in Hnd as [Hk' Hnd].
    apply elem_of_cons in Hin as [Heq|Hin].
    + simplify_eq. by rewrite bool_decide_eq_true_2.
    + rewrite bool_decide_eq_false_2; [by apply IH|].
      intros ->. apply Hk'. apply list_elem_of_fmap. by exists (k, v).
Qed.

Lemma find_key_None {A} (l : list (string * A)) k :
  k ∉ l.*1 → List.find (fun kv => bool_decide (kv.1 = k)) l = None.
Proof.
  induction l as [|[k' v'] l IH]; simpl; intros Hk; [done|].
  apply not_elem_of_cons in Hk as [Hne Hk].
  rewrite bool_decide_eq_false_2 by done. by apply IH.
Qed.

Lemma member_mapJSON {A} (f : A → JSON) (g : gmap string (option A)) k :
  member k (mapJSON f (Some g)) = pointerJSON f <$> g !! k.
Proof.
  unfold member, mapJSON.
  set (l := (fun kv : string * option A => (kv.1, pointerJSON f kv.2)) <$> map_to_list g).
  assert (Hfst : l.*1 = (map_to_list g).*1).
  { unfold l. rewrite <-list_fmap_compose. by apply list_fmap_ext. }
  pose proof (merge_sort_Permutation keyLe l) as Hperm.
  assert (Hnd : NoDup (merge_sort keyLe l).*1).
  { rewrite Hperm, Hfst. apply NoDup_fst_map_to_list. }
  destruct (g !! k) as [v|] eqn:Hk; simpl.
  - rewrite (find_key_Some _ k (pointerJSON f v)); [done..|].
    rewrite Hperm. unfold l. apply list_elem_of_fmap. exists (k, v).
    split; [done|]. by apply elem_of_map_to_list.
  - rewrite find_key_None; [done|].
    rewrite Hperm, Hfst. intros Hin.
    apply list_elem_of_fmap in Hin as ([k' v] & -> & Hin).
    apply elem_of_map_to_list in Hin. simpl in Hk. congruence.
Qed.

Lemma lookupPath_nil j : lookupPath [] j = Some j.
Proof. reflexivity. Qed.

Lemma lookupPath_cons name path j j' :
  member name j = Some j' → lookupPath (name :: path) j = lookupPath path j'.
Proof. intros Hm. unfold lookupPath. simpl foldl. by rewrite Hm. Qed.

Lemma member_channel manifest :
  member "channel" (manifestJSON manifest) = Some (mapJSON channelJSON (Channel manifest)).
Proof. reflexivity. Qed.

Lemma member_version e : member "version" (channelJSON e) = Some (JString (Version e)).
Proof. reflexivity. Qed.

Lemma member_build e : member "build" (channelJSON e) = Some (JTime (Build e)).
Proof. reflexivity. Qed.

Lemma member_artifact e :
  member "artifact" (channelJSON e) = Some (mapJSON artifactJSON (Artifact e)).
Proof. reflexivity. Qed.

Lemma member_pointer {A} (f : A → JSON) (g : gmap string (option A)) k v :
  g !! k = Some (Some v) → member k (mapJSON f (Some g)) = Some (f v).
Proof. intros Hk. by rewrite member_mapJSON, Hk. Qed.

Lemma target_Some cfg manifest a :
  target cfg manifest = Some a →
  ∃ g e arts,
    Channel manifest = Some g ∧ g !! CHANNEL cfg = Some (Some e)
    ∧ Artifact e = Some arts ∧ arts !! PLATFORM cfg = Some (Some a).
Proof.
  unfold target, pointer, index. intros Ht.
  destruct (Channel manifest) as [g|]; [|done].
  simpl in Ht.
  destruct (g !! CHANNEL cfg) as [[e|]|] eqn:Hc; [|done..].
  simpl in Ht.
  destruct (Artifact e) as [arts|] eqn:He; [|done].
  simpl in Ht.
  destruct (arts !! PLATFORM cfg) as [[a'|]|] eqn:Hp; [|done..].
  simpl in Ht. simplify_eq. by exists g, e, arts.
Qed.

Lemma manifestJSON_target cfg manifest a :
  target cfg manifest = Some a →
  lookupPath ["channel"; CHANNEL cfg; "artifact"; PLATFORM cfg] (manifestJSON manifest)
  = Some (artifactJSON a).
Proof.
  intros (g & e & arts & Hg & Hc & He & Hp)%target_Some.
  rewrite (lookupPath_cons _ _ _ _ (member_channel _)), Hg.
  rewrite (lookupPath_cons _ _ _ _ (member_pointer _ _ _ _ Hc)).
  rewrite (lookupPath_cons _ _ _ _ (member_artifact _)), He.
  by rewrite (lookupPath_cons _ _ _ _ (member_pointer _ _ _ _ Hp)).
Qed.

(** ** The digest and its hexadecimal text *)

Lemma Sum256_length data : length (Blake2b.Sum256 data) = 32%nat.
Proof. unfold Blake2b.Sum256. rewrite length_map. reflexivity. Qed.

Lemma EncodeToString_length src :
  String.length (Hex.EncodeToString src) = (2 * length src)%nat.
Proof. induction src as [|v src IH]; simpl; [done|]. rewrite IH. lia. Qed.

Lemma digit_lowerHex (v : byte) :
  lowerHex (Hex.digit (N.shiftr (Byte.to_N v) 4)) = true
  ∧ lowerHex (Hex.digit (N.land (Byte.to_N v) 15)) = true.
Proof. destruct v; vm_compute; done. Qed.

Lemma EncodeToString_lowerHex src :
  Forall (fun c => lowerHex c = true) (list_ascii_of_string (Hex.EncodeToString src)).
Proof.
  induction src as [|v src IH]; simpl; [constructor|].
  destruct (digit_lowerHex v). by repeat constructor.
Qed.

(** ** What a successful [update] has done *)

Lemma update_Done `{EncodingJSON} cfg manifest tr manifest' :
  update cfg manifest = (tr, Done manifest') →
  ∃ arts a body,
    targetPath cfg manifest = Some (arts, a)
    ∧ manifest' = merged cfg (channelsOf manifest) arts a
    ∧ Marshal manifest' = Ok body
    ∧ tr = [artifactPut cfg None; Stdout "I: Artifact uploaded successfully";
            manifestPut cfg body None; Stdout "I: Manifest uploaded successfully"].
Proof.
  intros Hu. destruct (targetPath cfg manifest) as [[arts a]|] eqn:Hp.
  - rewrite (update_found _ _ _ _ Hp) in Hu.
    pose proof (transfer_run cfg (merged cfg (channelsOf manifest) arts a)) as Hrun.
    rewrite Hu in Hrun. inversion Hrun; subst. by exists arts, a, body.
  - destruct (update_not_found _ _ Hp) as [[msg Hpanic]|Hpanic]; rewrite Hpanic in Hu.
    + discriminate.
    + destruct (copyErr (executable cfg)); discriminate.
Qed.

Lemma index_channelsOf manifest c : index (Channel manifest) c = channelsOf manifest !! c.
Proof. by destruct manifest as [[g|]]. Qed.

Lemma index_merged cfg g arts a c :
  index (Channel (merged cfg g arts a)) c
  = <[CHANNEL cfg :=
        Some {| Version := VERSION cfg; Build := ModTime (executableStat cfg);
                Artifact := Some (<[PLATFORM cfg := Some (releasedArtifact cfg a)]> arts) |}]>
      g !! c.
Proof. reflexivity. Qed.

Lemma target_merged cfg g arts a :
  target cfg (merged cfg g arts a) = Some (releasedArtifact cfg a).
Proof.
  unfold target, merged, pointer, index. simpl. rewrite lookup_insert_eq. simpl.
  by rewrite lookup_insert_eq.
Qed.

Lemma platformOf_merged cfg g arts a p :
  platformOf (merged cfg g arts a) (CHANNEL cfg) p
  = <[PLATFORM cfg := Some (releasedArtifact cfg a)]> arts !! p.
Proof.
  unfold platformOf, merged, pointer, index. simpl. by rewrite lookup_insert_eq.
Qed.

(** The platform entries that [targetPath] returns are those of the target
    channel of the manifest. *)
Lemma targetPath_platforms cfg manifest arts a p :
  targetPath cfg manifest = Some (arts, a) →
  platformOf manifest (CHANNEL cfg) p = arts !! p.
Proof.
  unfold targetPath, platformOf, pointer. rewrite index_channelsOf.
  destruct (channelsOf manifest !! CHANNEL cfg) as [[e|]|]; simpl; [|done|].
  - destruct (Artifact e) as [arts'|]; simpl; [|done].
    destruct (arts' !! PLATFORM cfg) as [[a'|]|]; by intros [= <- <-].
  - by intros [= <- <-].
Qed.

Lemma targetPath_target cfg manifest arts a :
  targetPath cfg manifest = Some (arts, a) →
  match target cfg manifest with
  | Some a0 => a = a0
  | None => a = zeroArtifact
  end.
Proof.
  unfold targetPath, target, pointer. rewrite index_channelsOf.
  destruct (channelsOf manifest !! CHANNEL cfg) as [[e|]|]; simpl; [|done|].
  - unfold index. destruct (Artifact e) as [arts'|]; simpl; [|done].
    destruct (arts' !! PLATFORM cfg) as [[a'|]|]; simpl; by intros [= <- <-].
  - by intros [= <- <-].
Qed.

(** * The claims *)

(** C1. Whatever manifest was fetched and whatever the target (channel,
    platform), a merge that completes leaves every other channel entry as
    it was, leaves every other platform entry under the target channel as
    it was, and removes no channel key and no platform key. *)
Theorem update_preserves_siblings `{EncodingJSON} cfg manifest tr manifest' :
  update cfg manifest = (tr, Done manifest') →
  (∀ c, c ≠ CHANNEL cfg → index (Channel manifest') c = index (Channel manifest) c)
  ∧ (∀ p, p ≠ PLATFORM cfg →
       platformOf manifest' (CHANNEL cfg) p = platformOf manifest (CHANNEL cfg) p)
  ∧ (∀ c, is_Some (index (Channel manifest) c) → is_Some (index (Channel manifest') c))
  ∧ (∀ p, is_Some (platformOf manifest (CHANNEL cfg) p) →
       is_Some (platformOf manifest' (CHANNEL cfg) p)).
Proof.
  intros Hu. apply update_Done in Hu as (arts & a & body & Hp & -> & _ & _).
  repeat split.
  - intros c Hc. rewrite index_merged, index_channelsOf.
    by rewrite lookup_insert_ne.
  - intros p Hne. rewrite platformOf_merged, (targetPath_platforms _ _ _ _ _ Hp).
    by rewrite lookup_insert_ne.
  - intros c. rewrite index_merged, index_channelsOf.
    destruct (decide (c = CHANNEL cfg)) as [->|Hne].
    + by rewrite lookup_insert_eq.
    + by rewrite lookup_insert_ne.
  - intros p. rewrite platformOf_merged, (targetPath_platforms _ _ _ _ _ Hp).
    destruct (decide (p = PLATFORM cfg)) as [->|Hne].
    + by rewrite lookup_insert_eq.
    + by rewrite lookup_insert_ne.
Qed.

Lemma update_preserves_siblings_witness :
  ∃ tr manifest',
    update (H := Demo.reading Demo.siblings) Demo.storedCfg Demo.siblings = (tr, Done manifest')
    ∧ index (Channel manifest') "beta" = index (Channel Demo.siblings) "beta"
    ∧ platformOf manifest' "stable" "darwin-arm64"
      = platformOf Demo.siblings "stable" "darwin-arm64".
Proof.
  assert (∃ tr manifest',
    update (H := Demo.reading Demo.siblings) Demo.storedCfg Demo.siblings = (tr, Done manifest'))
    as (tr & manifest' & Hu) by (eexists _, _; vm_compute; reflexivity).
  destruct (update_preserves_siblings Demo.storedCfg Demo.siblings tr manifest' Hu)
    as (Hc & Hp & _).
  exists tr, manifest'. split; [exact Hu|].
  split; [apply Hc|apply Hp]; discriminate.
Defined.

Lemma lookupPath_channel_field cfg g e name :
  g !! CHANNEL cfg = Some (Some e) →
  lookupPath ["channel"; CHANNEL cfg; name] (manifestJSON {| Channel := Some g |})
  = member name (channelJSON e).
Proof.
  intros Hc. rewrite (lookupPath_cons _ _ _ _ (member_channel _)). cbn [Channel].
  rewrite (lookupPath_cons _ _ _ _ (member_pointer _ _ _ _ Hc)).
  unfold lookupPath. simpl foldl. reflexivity.
Qed.

(** C7. A merge that completes leaves, in the entry of the target channel,
    the new version string and the modification time of the artifact file;
    the two fields belong to the channel entry, under which every platform
    of the channel is found, and that is how they are serialised. *)
Theorem update_sets_version_and_build `{EncodingJSON} cfg manifest tr manifest' :
  update cfg manifest = (tr, Done manifest') →
  ∃ entry,
    pointer (Channel manifest') (CHANNEL cfg) = Some entry
    ∧ Version entry = VERSION cfg
    ∧ Build entry = ModTime (executableStat cfg)
    ∧ (∀ p, is_Some (platformOf manifest (CHANNEL cfg) p) → is_Some (index (Artifact entry) p))
    ∧ is_Some (index (Artifact entry) (PLATFORM cfg))
    ∧ lookupPath ["channel"; CHANNEL cfg; "version"] (manifestJSON manifest')
      = Some (JString (VERSION cfg))
    ∧ lookupPath ["channel"; CHANNEL cfg; "build"] (manifestJSON manifest')
      = Some (JTime (ModTime (executableStat cfg))).
Proof.
  intros Hu. apply update_Done in Hu as (arts & a & body & Hp & -> & _ & _).
  eexists. split; [|split; [|split; [|split; [|split; [|split]]]]].
  - unfold merged, pointer, index. simpl. by rewrite lookup_insert_eq.
  - done.
  - done.
  - intros p. rewrite (targetPath_platforms _ _ _ _ _ Hp). unfold index. simpl.
    destruct (decide (p = PLATFORM cfg)) as [->|Hne].
    + by rewrite lookup_insert_eq.
    + by rewrite lookup_insert_ne.
  - unfold index. simpl. by rewrite lookup_insert_eq.
  - unfold merged. by erewrite lookupPath_channel_field by apply lookup_insert_eq.
  - unfold merged. by erewrite lookupPath_channel_field by apply lookup_insert_eq.
Qed.

Lemma update_sets_version_and_build_witness :
  ∃ tr manifest' entry,
    update (H := Demo.reading Demo.siblings) Demo.storedCfg Demo.siblings = (tr, Done manifest')
    ∧ pointer (Channel manifest') "stable" = Some entry
    ∧ Version entry = "1.0.0"
    ∧ Build entry = Demo.mtime
    ∧ is_Some (index (Artifact entry) "darwin-arm64").
Proof.
  assert (∃ tr manifest',
    update (H := Demo.reading Demo.siblings) Demo.storedCfg Demo.siblings = (tr, Done manifest'))
    as (tr & manifest' & Hu) by (eexists _, _; vm_compute; reflexivity).
  destruct (update_sets_version_and_build Demo.storedCfg Demo.siblings tr manifest' Hu)
    as (entry & He & Hv & Hb & Hsib & _).
  exists tr, manifest', entry.
  split; [exact Hu|]. split; [exact He|]. split; [exact Hv|]. split; [exact Hb|].
  apply Hsib. vm_compute. by eexists.
Defined.

(** C6. The checksum recorded for the target platform is the lowercase
    hexadecimal text (64 characters) of the 32-byte BLAKE2b digest of the
    bytes of the artifact, and the key of the stored artifact is built
    from it; a second publish of the same bytes for the same app records
    the same checksum and stores under the same key. *)
Theorem checksum_is_hex_digest `{EncodingJSON} cfg manifest tr manifest' :
  update cfg manifest = (tr, Done manifest') →
  let sum := Blake2b.Sum256 (contents (executable cfg)) in
  ∃ a,
    target cfg manifest' = Some a
    ∧ Checksum a = Hex.EncodeToString sum
    ∧ length sum = 32%nat
    ∧ String.length (Checksum a) = 64%nat
    ∧ Forall (fun c => lowerHex c = true) (list_ascii_of_string (Checksum a))
    ∧ artifactUploads tr
      = [PutObjectCall (BUCKET cfg) (artifactKey cfg (Checksum a)) (contents (executable cfg))
           (Size (executableStat cfg)) "application/octet-stream" None]
    ∧ ∀ cfg2 manifest2 tr2 manifest2',
        update cfg2 manifest2 = (tr2, Done manifest2') →
        contents (executable cfg2) = contents (executable cfg) →
        APP_ID cfg2 = APP_ID cfg →
        ∃ a2 data2 size2,
          target cfg2 manifest2' = Some a2
          ∧ Checksum a2 = Checksum a
          ∧ artifactUploads tr2
            = [PutObjectCall (BUCKET cfg2) (artifactKey cfg (Checksum a)) data2 size2
                 "application/octet-stream" None].
Proof.
  intros Hu sum. apply update_Done in Hu as (arts & a & body & Hp & -> & _ & ->).
  exists (releasedArtifact cfg a). split; [apply target_merged|].
  split; [reflexivity|]. split; [apply Sum256_length|].
  split; [unfold releasedArtifact; fields; by rewrite EncodeToString_length, Sum256_length|].
  split; [apply EncodeToString_lowerHex|].
  split; [reflexivity|].
  intros cfg2 manifest2 tr2 manifest2' Hu2 Hbytes Happ.
  apply update_Done in Hu2 as (arts2 & a2 & body2 & Hp2 & -> & _ & ->).
  exists (releasedArtifact cfg2 a2), (contents (executable cfg2)), (Size (executableStat cfg2)).
  split; [apply target_merged|].
  split; [unfold releasedArtifact; fields; by rewrite Hbytes|].
  unfold artifactKey, releasedArtifact. fields. rewrite <- Hbytes, <- Happ. reflexivity.
Qed.

Lemma checksum_is_hex_digest_witness :
  ∃ tr manifest' a,
    update (H := Demo.rejecting) Demo.freshCfg zeroManifest = (tr, Done manifest')
    ∧ target Demo.freshCfg manifest' = Some a
    ∧ Checksum a = "324dcf027dd4a30a932c441f365a25e86b173defa4b8e58948253471b81b72cf"
    ∧ String.length (Checksum a) = 64%nat.
Proof.
  assert (∃ tr manifest',
    update (H := Demo.rejecting) Demo.freshCfg zeroManifest = (tr, Done manifest'))
    as (tr & manifest' & Hu) by (eexists _, _; vm_compute; reflexivity).
  destruct (checksum_is_hex_digest Demo.freshCfg zeroManifest tr manifest' Hu)
    as (a & Ht & Hc & _ & Hlen & _).
  exists tr, manifest', a.
  split; [exact Hu|]. split; [exact Ht|]. split; [|exact Hlen].
  rewrite Hc. vm_compute. reflexivity.
Defined.

Lemma lookupPath_snoc path name j :
  lookupPath (path ++ [name]) j = lookupPath path j ≫= member name.
Proof. unfold lookupPath. by rewrite foldl_app. Qed.

(** C9, as the code has it. A merge that completes leaves the patch field
    of the target platform as it was when the fetched manifest had the
    entry, and as the empty string otherwise; in both cases the member
    [patch] is written to the serialised document, with that value. *)
Theorem patch_kept_or_empty `{EncodingJSON} cfg manifest tr manifest' :
  update cfg manifest = (tr, Done manifest') →
  ∃ a body,
    target cfg manifest' = Some a
    ∧ Patch a = match target cfg manifest with
                | Some a0 => Patch a0
                | None => EmptyString
                end
    ∧ manifestUploads tr = [manifestPut cfg body None]
    ∧ Marshal manifest' = Ok body
    ∧ lookupPath ["channel"; CHANNEL cfg; "artifact"; PLATFORM cfg; "patch"]
        (manifestJSON manifest')
      = Some (JString (Patch a)).
Proof.
  intros Hu. apply update_Done in Hu as (arts & a & body & Hp & -> & Hm & ->).
  exists (releasedArtifact cfg a), body.
  split; [apply target_merged|].
  split.
  { pose proof (targetPath_target _ _ _ _ Hp) as Ha. simpl.
    destruct (target cfg manifest); by subst. }
  split; [done|]. split; [done|].
  change ["channel"; CHANNEL cfg; "artifact"; PLATFORM cfg; "patch"]
    with (["channel"; CHANNEL cfg; "artifact"; PLATFORM cfg] ++ ["patch"]).
  rewrite lookupPath_snoc.
  by rewrite (manifestJSON_target _ _ _ (target_merged cfg _ arts a)).
Qed.

Lemma patch_kept_or_empty_witness :
  ∃ tr manifest' a,
    update (H := Demo.reading Demo.published) Demo.storedCfg Demo.published
    = (tr, Done manifest')
    ∧ target Demo.storedCfg manifest' = Some a
    ∧ Patch a = "app1/patch/cc".
Proof.
  assert (∃ tr manifest',
    update (H := Demo.reading Demo.published) Demo.storedCfg Demo.published
    = (tr, Done manifest'))
    as (tr & manifest' & Hu) by (eexists _, _; vm_compute; reflexivity).
  destruct (patch_kept_or_empty Demo.storedCfg Demo.published tr manifest' Hu)
    as (a & body & Ht & Hpatch & _).
  exists tr, manifest', a.
  split; [exact Hu|]. split; [exact Ht|].
  rewrite Hpatch. vm_compute. reflexivity.
Defined.

(** C9, as stated, fails: on a first publish (no stored manifest) the
    serialised document has the member [patch], with the empty string. *)
Lemma patch_member_is_serialised :
  target Demo.freshCfg zeroManifest = None
  ∧ exitStatus (main (H := Demo.rejecting) Demo.fresh).2 = 0%Z
  ∧ (∃ manifest',
       (main (H := Demo.rejecting) Demo.fresh).2 = Done manifest'
       ∧ lookupPath ["channel"; "stable"; "artifact"; "linux-x64"; "patch"]
           (manifestJSON manifest')
         = Some (JString EmptyString))
  ∧ (∃ bucket key body size err,
       manifestUploads (main (H := Demo.rejecting) Demo.fresh).1
       = [PutObjectCall bucket key body size "application/json" err]
       ∧ string_of_list_byte body
         = Demo.text "{'channel':{'stable':{'version':'1.0.0','build':'2024-01-01T00:00:00Z','artifact':{'linux-x64':{'binary':'app1/artifect/324dcf027dd4a30a932c441f365a25e86b173defa4b8e58948253471b81b72cf','checksum':'324dcf027dd4a30a932c441f365a25e86b173defa4b8e58948253471b81b72cf','patch':''}}}}}").
Proof.
  split; [reflexivity|]. split; [vm_compute; reflexivity|]. split.
  - eexists. split; vm_compute; reflexivity.
  - eexists _, _, _, _, _. split; vm_compute; reflexivity.
Qed.

(** ** The runs of [main] *)

Lemma main_run `{EncodingJSON} os :
  (∃ msg, main os = ([Stdout msg], Exit 1))
  ∨ (∃ cfg, setup os = ([], Done cfg)
      ∧ ((∃ msg, main os = ([getCall cfg; Stdout msg], Exit 1))
         ∨ (∃ msg, main os = ([getCall cfg], Panic msg))
         ∨ (∃ manifest arts a tr o,
              targetPath cfg manifest = Some (arts, a)
              ∧ TransferRun cfg (merged cfg (channelsOf manifest) arts a) (tr, o)
              ∧ main os = (getCall cfg :: tr, o)))).
Proof.
  destruct (setup_cases os) as [[cfg Hs]|[msg Hs]];
    [right; exists cfg; split; [done|]|left; exists msg; unfold main; by rewrite Hs].
  rewrite (main_eq _ _ _ Hs), load_eq. fold (getCall cfg).
  assert (Hrest : ∀ manifest,
    (∃ msg, (emit (getCall cfg) ;; update cfg manifest) = ([getCall cfg; Stdout msg], Exit 1))
    ∨ (∃ msg, (emit (getCall cfg) ;; update cfg manifest) = ([getCall cfg], Panic msg))
    ∨ (∃ manifest0 arts a tr o,
         targetPath cfg manifest0 = Some (arts, a)
         ∧ TransferRun cfg (merged cfg (channelsOf manifest0) arts a) (tr, o)
         ∧ (emit (getCall cfg) ;; update cfg manifest) = (getCall cfg :: tr, o))).
  { intros manifest. destruct (targetPath cfg manifest) as [[arts a]|] eqn:Hp.
    - right; right. exists manifest, arts, a.
      pose proof (transfer_run cfg (merged cfg (channelsOf manifest) arts a)) as Hrun.
      destruct (transfer cfg _) as [tr o] eqn:Ht. exists tr, o.
      split; [done|]. split; [done|].
      rewrite (update_found _ _ _ _ Hp), Ht. by destruct o.
    - destruct (update_not_found _ _ Hp) as [[msg ->]| ->].
      + right; left. by exists msg.
      + destruct (copyErr (executable cfg)).
        * left. by eexists.
        * right; left. by eexists. }
  rewrite bind_assoc.
  destruct (GetObject (r2 cfg) (BUCKET cfg) (manifestKey cfg)) as [reader|err] eqn:Hget.
  - destruct (Decode reader) as [manifest|e] eqn:Hd; simpl check.
    + specialize (Hrest manifest).
      replace (emit (getCall cfg) ≫= λ _, mret manifest ≫= update cfg)
        with (emit (getCall cfg) ;; update cfg manifest)
        by (apply bind_ext; intros []; by rewrite bind_ret_l).
      done.
    + left. by eexists.
  - specialize (Hrest zeroManifest).
    replace (emit (getCall cfg) ≫= λ _, mret zeroManifest ≫= update cfg)
      with (emit (getCall cfg) ;; update cfg zeroManifest)
      by (apply bind_ext; intros []; by rewrite bind_ret_l).
    done.
Qed.

(** C8. When the stored manifest is fetched but does not decode, the run
    prints the failure and exits with status 1, and [PutObject] is never
    called. *)
Theorem undecodable_manifest_is_fatal `{EncodingJSON} os tr0 cfg reader e :
  setup os = (tr0, Done cfg) →
  GetObject (r2 cfg) (BUCKET cfg) (manifestKey cfg) = Ok reader →
  Decode reader = Err e →
  main os = ([getCall cfg; Stdout ("E: Failed to decode manifest: " +:+ e)], Exit 1)
  ∧ exitStatus (main os).2 ≠ 0%Z
  ∧ uploads (main os).1 = [].
Proof.
  intros Hs Hget Hd.
  assert (Hmain : main os
    = ([getCall cfg; Stdout ("E: Failed to decode manifest: " +:+ e)], Exit 1)).
  { rewrite (main_eq _ _ _ Hs), load_eq. fold (getCall cfg). by rewrite Hget, Hd. }
  rewrite Hmain. by repeat split.
Qed.

Lemma undecodable_manifest_is_fatal_witness :
  exitStatus (main (H := Demo.rejecting) Demo.stored).2 ≠ 0%Z
  ∧ uploads (main (H := Demo.rejecting) Demo.stored).1 = [].
Proof.
  refine (proj2 (undecodable_manifest_is_fatal (H := Demo.rejecting) Demo.stored []
                   Demo.storedCfg (bytes_of "{") "unexpected end of JSON input" _ _ _));
    vm_compute; reflexivity.
Defined.

(** How [main] treats a failed fetch (main.go:99-105): whatever the
    reason, not found or any other, the error is dropped and the rest of
    the run is the merge and the uploads on the zero manifest. *)
Lemma failed_fetch_starts_from_zero_manifest `{EncodingJSON} os tr0 cfg err :
  setup os = (tr0, Done cfg) →
  GetObject (r2 cfg) (BUCKET cfg) (manifestKey cfg) = Err err →
  main os
  = (GetObjectCall (BUCKET cfg) (manifestKey cfg) (Err err) :: (update cfg zeroManifest).1,
     (update cfg zeroManifest).2).
Proof.
  intros Hs Hget. rewrite (main_eq _ _ _ Hs), load_eq, Hget, bind_assoc.
  transitivity (emit (GetObjectCall (BUCKET cfg) (manifestKey cfg) (Err err)) ;;
                update cfg zeroManifest).
  { apply bind_ext; intros []. apply bind_ret_l. }
  reflexivity.
Qed.

Lemma failed_fetch_starts_from_zero_manifest_witness :
  main (H := Demo.rejecting) Demo.unreachable
  = (GetObjectCall "updates" "app1/manifest.json" (Err (S3Failure "connection reset by peer"))
       :: (update (H := Demo.rejecting) Demo.unreachableCfg zeroManifest).1,
     (update (H := Demo.rejecting) Demo.unreachableCfg zeroManifest).2).
Proof.
  apply (failed_fetch_starts_from_zero_manifest (H := Demo.rejecting) Demo.unreachable []
           Demo.unreachableCfg (S3Failure "connection reset by peer"));
    vm_compute; reflexivity.
Defined.

(** C2, on the code. A fetch that fails for another reason than not found
    is not fatal, as every other failed call of [main] is: the error is
    dropped, the artifact is uploaded, then a manifest that holds the
    target entry only is uploaded under the manifest key, over whatever
    the store holds there, and the run exits with status 0. *)
Theorem failed_fetch_is_not_fatal :
  GetObject (r2 Demo.unreachableCfg) "updates" "app1/manifest.json"
  = Err (S3Failure "connection reset by peer")
  ∧ exitStatus (main (H := Demo.rejecting) Demo.unreachable).2 = 0%Z
  ∧ length (artifactUploads (main (H := Demo.rejecting) Demo.unreachable).1) = 1%nat
  ∧ (∃ body size,
       manifestUploads (main (H := Demo.rejecting) Demo.unreachable).1
       = [PutObjectCall "updates" "app1/manifest.json" body size "application/json" None]
       ∧ string_of_list_byte body
         = Demo.text "{'channel':{'stable':{'version':'1.0.0','build':'2024-01-01T00:00:00Z','artifact':{'linux-x64':{'binary':'app1/artifect/324dcf027dd4a30a932c441f365a25e86b173defa4b8e58948253471b81b72cf','checksum':'324dcf027dd4a30a932c441f365a25e86b173defa4b8e58948253471b81b72cf','patch':''}}}}}").
Proof.
  split; [reflexivity|]. split; [vm_compute; reflexivity|].
  split; [vm_compute; reflexivity|].
  eexists _, _. split; vm_compute; reflexivity.
Qed.

Ltac by_position Hi i tac :=
  simpl in Hi;
  first [ discriminate Hi
        | destruct i as [|i]; [try discriminate Hi; tac|by_position Hi i tac] ].

(** C5. In every run, a call that uploads the manifest comes after a call
    that uploaded the artifact and succeeded; and when the upload of the
    artifact fails, the run exits with status 1 and the manifest is never
    uploaded. *)
Theorem manifest_upload_follows_artifact_upload `{EncodingJSON} os :
  (∀ i bucket key body size err,
     (main os).1 !! i = Some (PutObjectCall bucket key body size "application/json" err) →
     ∃ j bucket' key' data size',
       (j < i)%nat
       ∧ (main os).1 !! j
         = Some (PutObjectCall bucket' key' data size' "application/octet-stream" None))
  ∧ (∀ j bucket key data size e,
       (main os).1 !! j
       = Some (PutObjectCall bucket key data size "application/octet-stream" (Some e)) →
       (main os).2 = Exit 1 ∧ manifestUploads (main os).1 = []).
Proof.
  assert (Hshape : ∀ (tr : list Event) (o : Outcome Manifest),
    (∀ i bucket key body size err,
       tr !! i = Some (PutObjectCall bucket key body size "application/json" err) →
       i = 3%nat
       ∧ ∃ bucket' key' data size',
           tr !! 1%nat
           = Some (PutObjectCall bucket' key' data size' "application/octet-stream" None)) →
    (∀ j bucket key data size e,
       tr !! j = Some (PutObjectCall bucket key data size "application/octet-stream" (Some e)) →
       o = Exit 1 ∧ manifestUploads tr = []) →
    (∀ i bucket key body size err,
       tr !! i = Some (PutObjectCall bucket key body size "application/json" err) →
       ∃ j bucket' key' data size',
         (j < i)%nat
         ∧ tr !! j = Some (PutObjectCall bucket' key' data size' "application/octet-stream" None))
    ∧ (∀ j bucket key data size e,
         tr !! j = Some (PutObjectCall bucket key data size "application/octet-stream" (Some e)) →
         o = Exit 1 ∧ manifestUploads tr = [])).
  { intros tr o H1 H2. split; [|done].
    intros i bucket key body size err Hi.
    destruct (H1 _ _ _ _ _ _ Hi) as (-> & b' & k' & d' & s' & Hart).
    exists 1%nat, b', k', d', s'. split; [lia|done]. }
  destruct (main_run os) as
    [[msg ->]|(cfg & Hs & [[msg ->]|[[msg ->]|(m & arts & a & tr & o & Hp & Hrun & ->)]])];
    unfold getCall; cbn [fst snd]; apply Hshape.
  - intros i ????? Hi. by_position Hi i idtac.
  - intros i ????? Hi. by_position Hi i idtac.
  - intros i ????? Hi. by_position Hi i idtac.
  - intros i ????? Hi. by_position Hi i idtac.
  - intros i ????? Hi. by_position Hi i idtac.
  - intros i ????? Hi. by_position Hi i idtac.
  - unfold artifactPut, manifestPut in Hrun.
    inversion Hrun; subst; intros i ????? Hi;
      by_position Hi i ltac:(simplify_eq; split; [reflexivity|by eexists _, _, _, _]).
  - unfold artifactPut, manifestPut in Hrun.
    inversion Hrun; subst; intros i ????? Hi;
      by_position Hi i ltac:(simplify_eq; split; reflexivity).
Qed.

Lemma manifest_upload_follows_artifact_upload_witness :
  ∃ j bucket key data size,
    (j < 3)%nat
    ∧ (main (H := Demo.rejecting) Demo.fresh).1 !! j
      = Some (PutObjectCall bucket key data size "application/octet-stream" None).
Proof.
  refine (proj1 (manifest_upload_follows_artifact_upload (H := Demo.rejecting) Demo.fresh)
            3%nat _ _ _ _ _ _).
  vm_compute. reflexivity.
Defined.

(** C10. In every run that reaches the upload of the manifest, the
    document that is uploaded is the marshalled manifest whose binary field
    for the target (channel, platform) is, character for character, the
    key under which the artifact was stored, with success, earlier in the
    same run. *)
Theorem binary_names_uploaded_object `{EncodingJSON} os tr0 cfg i bucket key body size err :
  setup os = (tr0, Done cfg) →
  (main os).1 !! i = Some (PutObjectCall bucket key body size "application/json" err) →
  ∃ manifest' a j data size',
    Marshal manifest' = Ok body
    ∧ target cfg manifest' = Some a
    ∧ lookupPath ["channel"; CHANNEL cfg; "artifact"; PLATFORM cfg; "binary"]
        (manifestJSON manifest')
      = Some (JString (Binary a))
    ∧ (j < i)%nat
    ∧ (main os).1 !! j
      = Some (PutObjectCall (BUCKET cfg) (Binary a) data size' "application/octet-stream" None).
Proof.
  intros Hs.
  destruct (main_run os) as
    [[msg Hm]|(cfg' & Hs' & [[msg Hm]|[[msg Hm]|(m & arts & a & tr & o & Hp & Hrun & Hm)]])];
    rewrite Hm; unfold getCall; cbn [fst snd]; intros Hi.
  - by_position Hi i idtac.
  - by_position Hi i idtac.
  - by_position Hi i idtac.
  - assert (cfg' = cfg) as -> by congruence.
    assert (Hpath : lookupPath ["channel"; CHANNEL cfg; "artifact"; PLATFORM cfg; "binary"]
              (manifestJSON (merged cfg (channelsOf m) arts a))
            = Some (JString (Binary (releasedArtifact cfg a)))).
    { change ["channel"; CHANNEL cfg; "artifact"; PLATFORM cfg; "binary"]
        with (["channel"; CHANNEL cfg; "artifact"; PLATFORM cfg] ++ ["binary"]).
      rewrite lookupPath_snoc.
      by rewrite (manifestJSON_target _ _ _ (target_merged cfg _ arts a)). }
    unfold artifactPut, manifestPut in Hrun.
    inversion Hrun; subst;
      by_position Hi i ltac:(unfold manifestPut, artifactPut in Hi; simpl in Hi; simplify_eq).
    all: exists (merged cfg (channelsOf m) arts a), (releasedArtifact cfg a), 1%nat.
    all: eexists _, _.
    all: split; [eassumption|].
    all: split; [apply target_merged|].
    all: split; [exact Hpath|].
    all: split; [lia|reflexivity].
Qed.

Lemma binary_names_uploaded_object_witness :
  ∃ bucket key body size err,
    (main (H := Demo.reading Demo.siblings) Demo.stored).1 !! 3%nat
    = Some (PutObjectCall bucket key body size "application/json" err)
    ∧ ∃ manifest' a j data size',
        Marshal (H := Demo.reading Demo.siblings) manifest' = Ok body
        ∧ target Demo.storedCfg manifest' = Some a
        ∧ lookupPath ["channel"; "stable"; "artifact"; "linux-x64"; "binary"]
            (manifestJSON manifest')
          = Some (JString (Binary a))
        ∧ (j < 3)%nat
        ∧ (main (H := Demo.reading Demo.siblings) Demo.stored).1 !! j
          = Some (PutObjectCall "updates" (Binary a) data size'
                    "application/octet-stream" None).
Proof.
  assert (∃ bucket key body size err,
    (main (H := Demo.reading Demo.siblings) Demo.stored).1 !! 3%nat
    = Some (PutObjectCall bucket key body size "application/json" err))
    as (bucket & key & body & size & err & Hi)
    by (eexists _, _, _, _, _; vm_compute; reflexivity).
  assert (Hs : setup Demo.stored = ([], Done Demo.storedCfg)) by (vm_compute; reflexivity).
  exists bucket, key, body, size, err. split; [exact Hi|].
  exact (binary_names_uploaded_object (H := Demo.reading Demo.siblings) Demo.stored []
           Demo.storedCfg 3%nat bucket key body size err Hs Hi).
Defined.

(** C3, on the code. The key of the stored artifact and the binary field
    are the same string, but its middle segment is spelled [artifect], not
    [artifact]: for app [app1] and the bytes [hello] the artifact goes to
    [app1/artifect/324d...], and that is what the manifest records. *)
Theorem artifact_key_is_misspelled :
  artifactUploads (main (H := Demo.rejecting) Demo.fresh).1
  = [PutObjectCall "updates"
       "app1/artifect/324dcf027dd4a30a932c441f365a25e86b173defa4b8e58948253471b81b72cf"
       (bytes_of "hello") 5 "application/octet-stream" None]
  ∧ (∃ manifest',
       (main (H := Demo.rejecting) Demo.fresh).2 = Done manifest'
       ∧ Binary <$> target Demo.freshCfg manifest'
         = Some "app1/artifect/324dcf027dd4a30a932c441f365a25e86b173defa4b8e58948253471b81b72cf")
  ∧ "app1/artifect/324dcf027dd4a30a932c441f365a25e86b173defa4b8e58948253471b81b72cf"
    ≠ "app1/artifact/324dcf027dd4a30a932c441f365a25e86b173defa4b8e58948253471b81b72cf".
Proof.
  split; [vm_compute; reflexivity|]. split; [|discriminate].
  eexists. split; vm_compute; reflexivity.
Qed.

(** C4, on the code. When the fetched manifest has the target channel but
    that entry has no artifacts mapping (the member is missing or null),
    the platform entry is absent and ensure-path does not create it: the
    assignment to the nil map panics, the run ends with status 2 and
    nothing is uploaded. *)
Theorem ensurePath_panics_on_nil_artifacts :
  is_Some (pointer (Channel Demo.noArtifacts) "stable")
  ∧ platformOf Demo.noArtifacts "stable" "linux-x64" = None
  ∧ ensurePath Demo.storedCfg Demo.noArtifacts
    = ([], Panic "assignment to entry in nil map")
  ∧ exitStatus (main (H := Demo.reading Demo.noArtifacts) Demo.stored).2 = 2%Z
  ∧ uploads (main (H := Demo.reading Demo.noArtifacts) Demo.stored).1 = [].
Proof.
  split; [vm_compute; by eexists|]. repeat split; vm_compute; reflexivity.
Qed.

(** * Further properties of [main] *)

(** ** The setup (main.go:19-94) *)

(** X1. The variables are read in a fixed order, and the first one that
    is not set ends the run: its name is printed, the exit status is 1,
    and neither the file nor the store has been touched. *)
Theorem first_missing_variable_is_reported `{EncodingJSON} os i name :
  envNames !! i = Some name →
  (∀ j n, (j < i)%nat → envNames !! j = Some n → is_Some (LookupEnv os n)) →
  LookupEnv os name = None →
  main os = ([Stdout ("E: " +:+ name +:+ " is not set")], Exit 1).
Proof.
  intros Hname Hset Hmiss. unfold main, setup, lookupEnv. unfold envNames in *.
  do 9 (destruct i as [|i];
    [ injection Hname as <-; rewrite Hmiss; reflexivity
    | let v := fresh "v" in
      let Hv := fresh "Hv" in
      let Hset' := fresh "Hset" in
      destruct (Hset 0%nat _ (Nat.lt_0_succ _) eq_refl) as [v Hv]; rewrite Hv;
      assert (Hset' := fun j n (Hj : (j < i)%nat) =>
                         Hset (S j) n (proj1 (Nat.succ_lt_mono j i) Hj));
      clear Hset; rename Hset' into Hset; simpl in Hset, Hname ]).
  discriminate.
Qed.

Lemma first_missing_variable_is_reported_witness :
  main (H := Demo.rejecting)
    {| LookupEnv := fun name => if decide (name = "BUCKET") then None else Some "x";
       Open := fun _ => Err "unused";
       NewCore := fun _ _ _ => Err "unused" |}
  = ([Stdout "E: BUCKET is not set"], Exit 1).
Proof.
  apply (first_missing_variable_is_reported (H := Demo.rejecting) _ 3%nat "BUCKET").
  - reflexivity.
  - intros j n Hj Hn. do 3 (destruct j as [|j]; [injection Hn as <-; by eexists|]). lia.
  - reflexivity.
Defined.

Lemma lookupEnv_Some os name v : LookupEnv os name = Some v → lookupEnv os name = mret v.
Proof. intros Hv. unfold lookupEnv. by rewrite Hv. Qed.

(** X2. The setup succeeds exactly when every variable is set, the file
    opens and answers [Stat], and the client is built for the endpoint
    [<ACCOUNT_ID>.r2.cloudflarestorage.com] with the two access values;
    the locals of [main] are then those values, and nothing is printed. *)
Theorem setup_succeeds_iff_ready os cfg : setup os = ([], Done cfg) ↔ ready os cfg.
Proof.
  split.
  - unfold setup, ready.
    repeat lazymatch goal with
    | |- context [lookupEnv os ?name ≫= _] =>
        let Hv := fresh "Hv" in
        destruct (lookupEnv_cases os name) as [(? & Hv & ->)|[? ->]];
          [rewrite bind_ret_l|discriminate]
    | |- context [check ?msg ?r ≫= _] =>
        let Hv := fresh "Hv" in
        destruct (check_cases msg r) as [(? & Hv & ->)|[? ->]];
          [rewrite bind_ret_l|discriminate]
    end.
    intros [= <-]. cbn [ACCOUNT_ID ACCESS_KEY ACCESS_SECRET BUCKET CHANNEL APP_ID VERSION
                          PLATFORM EXECUTABLE_PATH executable executableStat r2].
    by repeat split.
  - destruct cfg as [a1 a2 a3 a4 a5 a6 a7 a8 a9 f st core]. unfold ready, setup.
    cbn [ACCOUNT_ID ACCESS_KEY ACCESS_SECRET BUCKET CHANNEL APP_ID VERSION
           PLATFORM EXECUTABLE_PATH executable executableStat r2].
    intros (H1 & H2 & H3 & H4 & H5 & H6 & H7 & H8 & H9 & Ho & Hst & Hc).
    rewrite (lookupEnv_Some _ _ _ H1), bind_ret_l, (lookupEnv_Some _ _ _ H2), bind_ret_l,
      (lookupEnv_Some _ _ _ H3), bind_ret_l, (lookupEnv_Some _ _ _ H4), bind_ret_l,
      (lookupEnv_Some _ _ _ H5), bind_ret_l, (lookupEnv_Some _ _ _ H6), bind_ret_l,
      (lookupEnv_Some _ _ _ H7), bind_ret_l, (lookupEnv_Some _ _ _ H8), bind_ret_l,
      (lookupEnv_Some _ _ _ H9), bind_ret_l, Ho.
    cbn [check]. rewrite bind_ret_l, Hst. cbn [check]. rewrite bind_ret_l, Hc.
    reflexivity.
Qed.

Lemma setup_succeeds_iff_ready_witness :
  setup Demo.fresh = ([], Done Demo.freshCfg) ∧ ready Demo.fresh Demo.freshCfg.
Proof.
  assert (Hr : ready Demo.fresh Demo.freshCfg) by (repeat split).
  split; [|exact Hr].
  exact (proj2 (setup_succeeds_iff_ready Demo.fresh Demo.freshCfg) Hr).
Defined.

(** X3. When the setup cannot succeed (a variable is not set, the file
    does not open or does not answer [Stat], or the client cannot be
    built), the run prints one line and exits with status 1; the store is
    never called. *)
Theorem failed_setup_calls_nothing `{EncodingJSON} os :
  (∀ cfg, ¬ ready os cfg) →
  ∃ msg, main os = ([Stdout msg], Exit 1).
Proof.
  intros Hno. apply main_setup_failure. intros cfg Hs.
  by apply (Hno cfg), setup_succeeds_iff_ready.
Qed.

Lemma failed_setup_calls_nothing_witness :
  ∃ msg,
    main (H := Demo.rejecting)
      {| LookupEnv := LookupEnv Demo.fresh;
         Open := fun _ => Err "open app.bin: no such file or directory";
         NewCore := NewCore Demo.fresh |}
    = ([Stdout msg], Exit 1).
Proof.
  apply (failed_setup_calls_nothing (H := Demo.rejecting)).
  intros cfg (_ & _ & _ & _ & _ & _ & _ & _ & _ & Ho & _). discriminate Ho.
Defined.

(** ** The ensure-path step (main.go:107-145) *)

Lemma ensurePath_Done cfg manifest tr manifest1 :
  ensurePath cfg manifest = (tr, Done manifest1) →
  tr = []
  ∧ ((channelsOf manifest !! CHANNEL cfg = None
      ∧ manifest1
        = {| Channel := Some (<[CHANNEL cfg :=
               Some {| Version := EmptyString; Build := zeroTime;
                       Artifact := Some (<[PLATFORM cfg := Some zeroArtifact]> ∅) |}]>
               (channelsOf manifest)) |})
     ∨ (∃ e arts,
          channelsOf manifest !! CHANNEL cfg = Some (Some e)
          ∧ Artifact e = Some arts
          ∧ ((is_Some (arts !! PLATFORM cfg)
              ∧ manifest1 = {| Channel := Some (channelsOf manifest) |})
             ∨ (arts !! PLATFORM cfg = None
                ∧ manifest1
                  = {| Channel := Some (<[CHANNEL cfg :=
                         Some {| Version := Version e; Build := Build e;
                                 Artifact := Some (<[PLATFORM cfg := Some zeroArtifact]> arts) |}]>
                         (channelsOf manifest)) |})))).
Proof.
  destruct (channelsOf manifest !! CHANNEL cfg) as [[e|]|] eqn:Hc.
  - rewrite (ensurePath_found _ _ e Hc).
    destruct (Artifact e) as [arts|] eqn:He; [|discriminate].
    destruct (arts !! PLATFORM cfg) as [p|] eqn:Hp; intros [= <- <-]; (split; [done|]);
      right; exists e, arts; (split; [done|]); (split; [done|]).
    + left. by split; [eexists|].
    + by right.
  - by rewrite (ensurePath_nil_channel _ _ Hc).
  - rewrite (ensurePath_new_channel _ _ Hc). intros [= <- <-]. split; [done|]. by left.
Qed.

(** X4. The ensure-path step completes exactly when no nil is in the way:
    the entry stored under the target channel, if there is one, is not a
    nil pointer and its artifact map is not nil. Otherwise it panics; in
    both cases it prints nothing and calls nothing. *)
Theorem ensurePath_completes_iff cfg manifest :
  (pathClear cfg manifest ↔ ∃ manifest1, ensurePath cfg manifest = ([], Done manifest1))
  ∧ (¬ pathClear cfg manifest ↔ ∃ msg, ensurePath cfg manifest = ([], Panic msg)).
Proof.
  unfold pathClear. rewrite index_channelsOf.
  destruct (channelsOf manifest !! CHANNEL cfg) as [[e|]|] eqn:Hc.
  - rewrite (ensurePath_found _ _ e Hc).
    destruct (Artifact e) as [arts|] eqn:He.
    + split; split.
      * intros _. destruct (arts !! PLATFORM cfg); by eexists.
      * done.
      * intros Hn. by destruct Hn.
      * intros [msg Hm]. by destruct (arts !! PLATFORM cfg).
    + split; split.
      * intros Hn. by destruct Hn.
      * by intros [m1 Hm].
      * intros _. by eexists.
      * intros _ Hn. by apply Hn.
  - rewrite (ensurePath_nil_channel _ _ Hc). split; split.
    + done.
    + by intros [m1 Hm].
    + intros _. by eexists.
    + tauto.
  - rewrite (ensurePath_new_channel _ _ Hc). split; split.
    + intros _. by eexists.
    + done.
    + tauto.
    + by intros [msg Hm].
Qed.

Lemma ensurePath_completes_iff_witness :
  ¬ pathClear Demo.storedCfg Demo.noArtifacts
  ∧ ∃ msg, ensurePath Demo.storedCfg Demo.noArtifacts = ([], Panic msg).
Proof.
  assert (Hn : ¬ pathClear Demo.storedCfg Demo.noArtifacts)
    by (intros Hc; vm_compute in Hc; by apply Hc).
  split; [exact Hn|].
  exact (proj1 (proj2 (ensurePath_completes_iff Demo.storedCfg Demo.noArtifacts)) Hn).
Defined.

(** X5. The ensure-path step is idempotent: on the manifest it returns it
    changes nothing. *)
Theorem ensurePath_idempotent cfg manifest tr manifest1 :
  ensurePath cfg manifest = (tr, Done manifest1) →
  ensurePath cfg manifest1 = ([], Done manifest1).
Proof.
  intros (-> & [[Hc ->]|(e & arts & Hc & He & [[[p Hp] ->]|[Hp ->]])])%ensurePath_Done.
  - erewrite ensurePath_found by (unfold channelsOf; simpl; apply lookup_insert_eq).
    cbn [Artifact]. by rewrite lookup_insert_eq.
  - rewrite (ensurePath_found _ _ e) by done. by rewrite He, Hp.
  - erewrite ensurePath_found by (unfold channelsOf; simpl; apply lookup_insert_eq).
    cbn [Artifact]. by rewrite lookup_insert_eq.
Qed.

Lemma ensurePath_idempotent_witness :
  ∃ manifest1,
    ensurePath Demo.storedCfg Demo.siblings = ([], Done manifest1)
    ∧ ensurePath Demo.storedCfg manifest1 = ([], Done manifest1).
Proof.
  assert (∃ manifest1, ensurePath Demo.storedCfg Demo.siblings = ([], Done manifest1))
    as [manifest1 H1] by (eexists; vm_compute; reflexivity).
  exists manifest1. split; [exact H1|].
  exact (ensurePath_idempotent Demo.storedCfg Demo.siblings [] manifest1 H1).
Defined.

Lemma pointer_channelsOf manifest c :
  pointer (Channel manifest) c = mjoin (channelsOf manifest !! c).
Proof. unfold pointer. by rewrite index_channelsOf. Qed.

Lemma platformOf_channelsOf manifest c p :
  platformOf manifest c p = mjoin (channelsOf manifest !! c) ≫= fun e => index (Artifact e) p.
Proof. unfold platformOf. by rewrite pointer_channelsOf. Qed.

(** X6. When the ensure-path step completes, it has created only what was
    missing: a missing channel entry gets the empty version and the zero
    build time, a missing platform key gets the zero entry, and every
    other channel, every other platform of the target channel, and the
    version and build of an existing target channel are as they were. *)
Theorem ensurePath_creates_only_missing cfg manifest tr manifest1 :
  ensurePath cfg manifest = (tr, Done manifest1) →
  (∀ c, c ≠ CHANNEL cfg → index (Channel manifest1) c = index (Channel manifest) c)
  ∧ (∀ p, p ≠ PLATFORM cfg →
       platformOf manifest1 (CHANNEL cfg) p = platformOf manifest (CHANNEL cfg) p)
  ∧ platformOf manifest1 (CHANNEL cfg) (PLATFORM cfg)
    = Some (default (Some zeroArtifact) (platformOf manifest (CHANNEL cfg) (PLATFORM cfg)))
  ∧ Version <$> pointer (Channel manifest1) (CHANNEL cfg)
    = Some (default EmptyString (Version <$> pointer (Channel manifest) (CHANNEL cfg)))
  ∧ Build <$> pointer (Channel manifest1) (CHANNEL cfg)
    = Some (default zeroTime (Build <$> pointer (Channel manifest) (CHANNEL cfg))).
Proof.
  intros (-> & [[Hc ->]|(e & arts & Hc & He & [[[p Hp] ->]|[Hp ->]])])%ensurePath_Done;
    rewrite !(platformOf_channelsOf manifest), !(pointer_channelsOf manifest), Hc.
  - split; [intros c Hne; rewrite (index_channelsOf manifest); simpl; by rewrite lookup_insert_ne|].
    split.
    { intros p Hne. rewrite (platformOf_channelsOf manifest), Hc.
      unfold platformOf, pointer, index. simpl. rewrite lookup_insert_eq. simpl.
      by rewrite lookup_insert_ne, lookup_empty. }
    unfold platformOf, pointer, index. simpl. rewrite lookup_insert_eq. simpl.
    by rewrite lookup_insert_eq.
  - split; [intros c Hne; by rewrite (index_channelsOf manifest)|].
    split.
    { intros p' Hne. rewrite (platformOf_channelsOf manifest), Hc.
      unfold platformOf, pointer, index. simpl. by rewrite Hc. }
    unfold platformOf, pointer, index. simpl. rewrite Hc. simpl. rewrite He. simpl.
    by rewrite Hp.
  - split; [intros c Hne; rewrite (index_channelsOf manifest); simpl; by rewrite lookup_insert_ne|].
    split.
    { intros p Hne. rewrite (platformOf_channelsOf manifest), Hc.
      unfold platformOf, pointer, index. simpl. rewrite lookup_insert_eq. simpl.
      rewrite He. simpl. by rewrite lookup_insert_ne. }
    unfold platformOf, pointer, index. simpl. rewrite lookup_insert_eq. simpl.
    rewrite He. simpl. by rewrite lookup_insert_eq, Hp.
Qed.

Lemma ensurePath_creates_only_missing_witness :
  ∃ manifest1,
    ensurePath Demo.storedCfg Demo.siblings = ([], Done manifest1)
    ∧ platformOf manifest1 "stable" "linux-x64" = Some (Some zeroArtifact)
    ∧ Version <$> pointer (Channel manifest1) "stable" = Some "0.9.0".
Proof.
  assert (∃ manifest1, ensurePath Demo.storedCfg Demo.siblings = ([], Done manifest1))
    as [manifest1 H1] by (eexists; vm_compute; reflexivity).
  destruct (ensurePath_creates_only_missing Demo.storedCfg Demo.siblings [] manifest1 H1)
    as (_ & _ & Hp & Hv & _).
  exists manifest1. split; [exact H1|]. split.
  - refine (eq_trans Hp _). vm_compute. reflexivity.
  - refine (eq_trans Hv _). vm_compute. reflexivity.
Defined.

(** ** The merge and the uploads (main.go:147-193) *)

Lemma targetPath_zero cfg : targetPath cfg zeroManifest = Some (∅, zeroArtifact).
Proof. unfold targetPath, channelsOf. simpl. by rewrite lookup_empty. Qed.

(** X7. A first publish (no usable stored manifest) never panics, and
    when it completes the manifest holds exactly one channel with exactly
    one platform: the target, with the new version, the modification time
    of the file, the digest as checksum, the key of the artifact as
    binary, and an empty patch. *)
Theorem first_publish_manifest `{EncodingJSON} cfg :
  (∀ msg, (update cfg zeroManifest).2 ≠ Panic msg)
  ∧ ∀ tr manifest',
      update cfg zeroManifest = (tr, Done manifest') →
      manifest'
      = {| Channel := Some {[ CHANNEL cfg :=
             Some {| Version := VERSION cfg;
                     Build := ModTime (executableStat cfg);
                     Artifact := Some {[ PLATFORM cfg :=
                       Some {| Binary :=
                                 artifactKey cfg
                                   (Hex.EncodeToString (Blake2b.Sum256 (contents (executable cfg))));
                               Checksum :=
                                 Hex.EncodeToString (Blake2b.Sum256 (contents (executable cfg)));
                               Patch := EmptyString |} ]} |} ]} |}.
Proof.
  split.
  - intros msg. rewrite (update_found _ _ _ _ (targetPath_zero cfg)).
    pose proof (transfer_run cfg (merged cfg (channelsOf zeroManifest) ∅ zeroArtifact)) as Hrun.
    intros Hp. inversion Hrun as [? Heq|? ? Heq|? ? ? Heq|? ? ? ? Heq|? ? Heq];
      rewrite <- Heq in Hp; discriminate Hp.
  - intros tr manifest' (arts & a & body & Hp & -> & _)%update_Done.
    rewrite targetPath_zero in Hp. injection Hp as <- <-.
    unfold merged, releasedArtifact, channelsOf. simpl default.
    by rewrite !insert_empty.
Qed.

Lemma first_publish_manifest_witness :
  ∃ tr manifest',
    update (H := Demo.rejecting) Demo.freshCfg zeroManifest = (tr, Done manifest')
    ∧ manifest'
      = {| Channel := Some {[ "stable" :=
             Some {| Version := "1.0.0"; Build := Demo.mtime;
                     Artifact := Some {[ "linux-x64" :=
                       Some {| Binary := "app1/artifect/324dcf027dd4a30a932c441f365a25e86b173defa4b8e58948253471b81b72cf";
                               Checksum := "324dcf027dd4a30a932c441f365a25e86b173defa4b8e58948253471b81b72cf";
                               Patch := EmptyString |} ]} |} ]} |}.
Proof.
  assert (∃ tr manifest',
    update (H := Demo.rejecting) Demo.freshCfg zeroManifest = (tr, Done manifest'))
    as (tr & manifest' & Hu) by (eexists _, _; vm_compute; reflexivity).
  exists tr, manifest'. split; [exact Hu|].
  refine (eq_trans (proj2 (first_publish_manifest (H := Demo.rejecting) Demo.freshCfg)
                      tr manifest' Hu) _).
  vm_compute. reflexivity.
Defined.

Lemma releasedArtifact_idemp cfg a :
  releasedArtifact cfg (releasedArtifact cfg a) = releasedArtifact cfg a.
Proof. reflexivity. Qed.

Lemma targetPath_merged cfg g arts a :
  targetPath cfg (merged cfg g arts a)
  = Some (<[PLATFORM cfg := Some (releasedArtifact cfg a)]> arts, releasedArtifact cfg a).
Proof.
  unfold targetPath, merged, channelsOf. simpl default. rewrite lookup_insert_eq.
  cbn [Artifact mbind option_bind]. by rewrite lookup_insert_eq.
Qed.

(** X8. Publishing again, with the same inputs, against the manifest that
    a publish has just produced changes nothing in it: the manifest is a
    fixed point of the merge, and the second run does what the first did. *)
Theorem republish_is_idempotent `{EncodingJSON} cfg manifest tr manifest' :
  update cfg manifest = (tr, Done manifest') →
  update cfg manifest' = (tr, Done manifest').
Proof.
  intros Hu. pose proof Hu as (arts & a & body & Hp & -> & _)%update_Done.
  rewrite (update_found _ _ _ _ Hp) in Hu.
  rewrite (update_found _ _ _ _ (targetPath_merged cfg _ arts a)).
  transitivity (transfer cfg (merged cfg (channelsOf manifest) arts a)); [|exact Hu].
  f_equal.
  unfold merged at 1. rewrite releasedArtifact_idemp.
  unfold merged, channelsOf. simpl default. by rewrite !insert_insert_eq.
Qed.

Lemma republish_is_idempotent_witness :
  ∃ tr manifest',
    update (H := Demo.reading Demo.siblings) Demo.storedCfg Demo.siblings = (tr, Done manifest')
    ∧ update (H := Demo.reading Demo.siblings) Demo.storedCfg manifest' = (tr, Done manifest').
Proof.
  assert (∃ tr manifest',
    update (H := Demo.reading Demo.siblings) Demo.storedCfg Demo.siblings = (tr, Done manifest'))
    as (tr & manifest' & Hu) by (eexists _, _; vm_compute; reflexivity).
  exists tr, manifest'. split; [exact Hu|].
  exact (republish_is_idempotent Demo.storedCfg Demo.siblings tr manifest' Hu).
Defined.

Lemma targetPath_other_channel cfg1 cfg2 g arts a :
  CHANNEL cfg1 ≠ CHANNEL cfg2 →
  targetPath cfg2 (merged cfg1 g arts a) = targetPath cfg2 {| Channel := Some g |}.
Proof.
  intros Hne. unfold targetPath, merged, channelsOf. simpl default.
  by rewrite lookup_insert_ne.
Qed.

Lemma targetPath_channelsOf cfg manifest :
  targetPath cfg {| Channel := Some (channelsOf manifest) |} = targetPath cfg manifest.
Proof. reflexivity. Qed.

(** X9. Two publishes to different channels commute: run one after the
    other on the same manifest, in either order, they leave the same
    manifest. *)
Theorem publishes_to_distinct_channels_commute `{EncodingJSON}
    cfg1 cfg2 manifest tr1 m1 tr12 m12 tr2 m2 tr21 m21 :
  CHANNEL cfg1 ≠ CHANNEL cfg2 →
  update cfg1 manifest = (tr1, Done m1) → update cfg2 m1 = (tr12, Done m12) →
  update cfg2 manifest = (tr2, Done m2) → update cfg1 m2 = (tr21, Done m21) →
  m12 = m21.
Proof.
  intros Hne (arts1 & a1 & ? & Hp1 & -> & _)%update_Done
             (arts2' & a2' & ? & Hp2' & -> & _)%update_Done
             (arts2 & a2 & ? & Hp2 & -> & _)%update_Done
             (arts1' & a1' & ? & Hp1' & -> & _)%update_Done.
  rewrite targetPath_other_channel, targetPath_channelsOf, Hp2 in Hp2' by done.
  rewrite targetPath_other_channel, targetPath_channelsOf, Hp1 in Hp1' by done.
  simplify_eq. unfold merged, channelsOf. simpl default. f_equal. f_equal.
  by apply insert_insert_ne.
Qed.

Lemma publishes_to_distinct_channels_commute_witness :
  ∃ tr1 m1 tr12 m12 tr2 m2 tr21 m21,
    update (H := Demo.rejecting) Demo.freshCfg zeroManifest = (tr1, Done m1)
    ∧ update (H := Demo.rejecting) Demo.betaCfg m1 = (tr12, Done m12)
    ∧ update (H := Demo.rejecting) Demo.betaCfg zeroManifest = (tr2, Done m2)
    ∧ update (H := Demo.rejecting) Demo.freshCfg m2 = (tr21, Done m21)
    ∧ m12 = m21.
Proof.
  eexists _, _, _, _, _, _, _, _.
  split; [vm_compute; reflexivity|]. split; [vm_compute; reflexivity|].
  split; [vm_compute; reflexivity|]. split; [vm_compute; reflexivity|].
  eapply (publishes_to_distinct_channels_commute (H := Demo.rejecting) Demo.freshCfg
            Demo.betaCfg zeroManifest);
    [discriminate|vm_compute; reflexivity..].
Defined.

(** X10. A nil pointer stored under the target platform is found only at
    the write of the checksum (main.go:156), after the file has been
    hashed: the run ends with status 1 if the read of the file fails and
    with a nil-dereference panic otherwise; nothing is uploaded. *)
Theorem nil_platform_entry_panics_after_hashing `{EncodingJSON} cfg manifest entry :
  pointer (Channel manifest) (CHANNEL cfg) = Some entry →
  index (Artifact entry) (PLATFORM cfg) = Some None →
  uploads (update cfg manifest).1 = []
  ∧ (update cfg manifest).2
    = match copyErr (executable cfg) with
      | Some _ => Exit 1
      | None => Panic "invalid memory address or nil pointer dereference"
      end.
Proof.
  rewrite pointer_channelsOf. intros Hc Hp.
  destruct (channelsOf manifest !! CHANNEL cfg) as [[e|]|] eqn:Hce; simplify_eq/=.
  unfold index in Hp. destruct (Artifact entry) as [arts|] eqn:He; simplify_eq/=.
  unfold update. rewrite (ensurePath_found _ _ entry Hce), He, Hp, bind_ret_l.
  rewrite (release_nil_platform _ _ entry arts) by done.
  by destruct (copyErr (executable cfg)).
Qed.

Lemma nil_platform_entry_panics_after_hashing_witness :
  uploads (update (H := Demo.rejecting) Demo.storedCfg Demo.nullPlatform).1 = []
  ∧ (update (H := Demo.rejecting) Demo.storedCfg Demo.nullPlatform).2
    = Panic "invalid memory address or nil pointer dereference".
Proof.
  apply (nil_platform_entry_panics_after_hashing (H := Demo.rejecting) Demo.storedCfg
           Demo.nullPlatform
           {| Version := "0.9.0"; Build := Demo.mtime;
              Artifact := Some {[ "linux-x64" := None ]} |});
    vm_compute; reflexivity.
Defined.

(** X11. When the file cannot be read for hashing, or cannot be rewound
    after it, the run prints which of the two failed and exits with
    status 1 before any upload. *)
Theorem local_read_failure_is_fatal `{EncodingJSON} cfg manifest :
  targetPath cfg manifest ≠ None →
  (∀ e, copyErr (executable cfg) = Some e →
     update cfg manifest = ([Stdout ("E: Failed to create checksum: " +:+ e)], Exit 1))
  ∧ (∀ e, copyErr (executable cfg) = None → seekErr (executable cfg) = Some e →
       update cfg manifest
       = ([Stdout ("E: Failed to seek to beginning of executable: " +:+ e)], Exit 1)).
Proof.
  intros Hp. destruct (targetPath cfg manifest) as [[arts a]|] eqn:Hpath; [|done].
  rewrite (update_found _ _ _ _ Hpath). unfold transfer.
  split.
  - intros e ->. reflexivity.
  - intros e -> ->. reflexivity.
Qed.

Lemma local_read_failure_is_fatal_witness :
  update (H := Demo.rejecting) Demo.unreadableCfg zeroManifest
  = ([Stdout "E: Failed to create checksum: read app.bin: input/output error"], Exit 1).
Proof.
  refine (proj1 (local_read_failure_is_fatal (H := Demo.rejecting) Demo.unreadableCfg
                   zeroManifest _) _ _).
  - rewrite targetPath_zero. discriminate.
  - reflexivity.
Defined.

(** X12. The artifact is stored before the manifest is marshalled or
    sent: when marshalling fails, or when the upload of the manifest
    fails, the run exits with status 1 and names the step, and the
    artifact has already been stored under its key. *)
Theorem late_failure_leaves_artifact_stored `{EncodingJSON} cfg manifest arts a :
  targetPath cfg manifest = Some (arts, a) →
  copyErr (executable cfg) = None → seekErr (executable cfg) = None →
  PutObject (r2 cfg) (BUCKET cfg)
    (artifactKey cfg (Hex.EncodeToString (Blake2b.Sum256 (contents (executable cfg)))))
    (contents (executable cfg)) (Size (executableStat cfg)) "application/octet-stream" = None →
  (∀ e, Marshal (merged cfg (channelsOf manifest) arts a) = Err e →
     update cfg manifest
     = ([artifactPut cfg None; Stdout "I: Artifact uploaded successfully";
         Stdout ("E: Failed to marshal manifest: " +:+ e)], Exit 1))
  ∧ (∀ body e,
       Marshal (merged cfg (channelsOf manifest) arts a) = Ok body →
       PutObject (r2 cfg) (BUCKET cfg) (manifestKey cfg) body (Z.of_nat (length body))
         "application/json" = Some e →
       update cfg manifest
       = ([artifactPut cfg None; Stdout "I: Artifact uploaded successfully";
           manifestPut cfg body (Some e); Stdout ("E: Failed to upload manifest: " +:+ e)],
          Exit 1)).
Proof.
  intros Hp Hcopy Hseek Hart. rewrite (update_found _ _ _ _ Hp).
  unfold transfer, putObject, artifactPut, manifestPut. rewrite Hcopy, Hseek, Hart.
  split.
  - intros e ->. reflexivity.
  - intros body e -> Hman. run_prog. rewrite Hman. reflexivity.
Qed.

Lemma late_failure_leaves_artifact_stored_witness :
  ∃ body,
    update (H := Demo.rejecting) Demo.refusedCfg zeroManifest
    = ([PutObjectCall "updates"
          "app1/artifect/324dcf027dd4a30a932c441f365a25e86b173defa4b8e58948253471b81b72cf"
          (bytes_of "hello") 5 "application/octet-stream" None;
        Stdout "I: Artifact uploaded successfully";
        PutObjectCall "updates" "app1/manifest.json" body (Z.of_nat (length body))
          "application/json" (Some "503 Slow Down");
        Stdout "E: Failed to upload manifest: 503 Slow Down"], Exit 1).
Proof.
  assert (∃ body,
    Marshal (H := Demo.rejecting)
      (merged Demo.refusedCfg (channelsOf zeroManifest) ∅ zeroArtifact) = Ok body)
    as [body Hm] by (eexists; vm_compute; reflexivity).
  exists body.
  refine (eq_trans
    (proj2 (late_failure_leaves_artifact_stored (H := Demo.rejecting) Demo.refusedCfg
              zeroManifest ∅ zeroArtifact (targetPath_zero _) eq_refl eq_refl eq_refl)
       body "503 Slow Down" Hm eq_refl) _).
  vm_compute. reflexivity.
Defined.

(** ** Whole runs *)

(** X13. The exit status is 0 exactly when the setup succeeded and the
    run is the full sequence: the fetch, the upload of the artifact with
    success, its confirmation, the upload of the manifest with success,
    its confirmation. *)
Theorem exit_zero_iff_both_uploads `{EncodingJSON} os :
  exitStatus (main os).2 = 0%Z
  ↔ ∃ cfg body,
      ready os cfg
      ∧ (main os).1
        = [getCall cfg; artifactPut cfg None; Stdout "I: Artifact uploaded successfully";
           manifestPut cfg body None; Stdout "I: Manifest uploaded successfully"].
Proof.
  destruct (main_run os) as
    [[msg ->]|(cfg & Hs & [[msg ->]|[[msg ->]|(m & arts & a & tr & o & Hp & Hrun & ->)]])];
    cbn [fst snd exitStatus].
  - split; [done|]. by intros (? & ? & _ & ?).
  - split; [done|]. by intros (? & ? & _ & ?).
  - split; [done|]. by intros (? & ? & _ & ?).
  - inversion Hrun; subst; cbn [exitStatus].
    + split; [done|]. by intros (? & ? & _ & ?).
    + split; [done|]. by intros (? & ? & _ & ?).
    + split; [done|]. by intros (? & ? & _ & ?).
    + split; [done|]. intros (? & ? & _ & Heq). unfold manifestPut in Heq. by simplify_eq.
    + split; [|done]. intros _. exists cfg, body.
      split; [by apply setup_succeeds_iff_ready|done].
Qed.

Lemma exit_zero_iff_both_uploads_witness :
  exitStatus (main (H := Demo.rejecting) Demo.fresh).2 = 0%Z
  ∧ ∃ cfg body,
      ready Demo.fresh cfg
      ∧ (main (H := Demo.rejecting) Demo.fresh).1
        = [getCall cfg; artifactPut cfg None; Stdout "I: Artifact uploaded successfully";
           manifestPut cfg body None; Stdout "I: Manifest uploaded successfully"].
Proof.
  assert (H0 : exitStatus (main (H := Demo.rejecting) Demo.fresh).2 = 0%Z)
    by (vm_compute; reflexivity).
  split; [exact H0|].
  exact (proj1 (exit_zero_iff_both_uploads (H := Demo.rejecting) Demo.fresh) H0).
Defined.

(** X14. A run calls the store at most three times and only on the two
    objects of the app: [GetObject] comes first, on the manifest key of
    the configured bucket; a [PutObject] is either the second event, the
    bytes of the file under the artifact key with the size that [Stat]
    gave, or the fourth event, a JSON document of the stated length under
    the manifest key. *)
Theorem store_calls_of_a_run `{EncodingJSON} os i ev :
  (main os).1 !! i = Some ev →
  match ev with
  | Stdout _ => True
  | GetObjectCall bucket key _ =>
      i = 0%nat ∧ ∃ cfg, ready os cfg ∧ bucket = BUCKET cfg
                         ∧ key = APP_ID cfg +:+ "/manifest.json"
  | PutObjectCall bucket key data size contentType _ =>
      ∃ cfg, ready os cfg ∧ bucket = BUCKET cfg
        ∧ ((i = 1%nat ∧ contentType = "application/octet-stream"
            ∧ key = APP_ID cfg +:+ "/artifect/"
                    +:+ Hex.EncodeToString (Blake2b.Sum256 (contents (executable cfg)))
            ∧ data = contents (executable cfg)
            ∧ size = Size (executableStat cfg))
           ∨ (i = 3%nat ∧ contentType = "application/json"
              ∧ key = APP_ID cfg +:+ "/manifest.json"
              ∧ size = Z.of_nat (length data)))
  end.
Proof.
  destruct (main_run os) as
    [[msg ->]|(cfg & Hs%setup_succeeds_iff_ready
               & [[msg ->]|[[msg ->]|(m & arts & a & tr & o & Hp & Hrun & ->)]])];
    unfold getCall; cbn [fst snd]; intros Hi.
  - by_position Hi i ltac:(simpl in Hi; by simplify_eq).
  - by_position Hi i ltac:(simpl in Hi; simplify_eq; first [done|by split; [|exists cfg]]).
  - by_position Hi i ltac:(simpl in Hi; simplify_eq; first [done|by split; [|exists cfg]]).
  - unfold artifactPut, manifestPut, artifactKey, manifestKey in Hrun.
    inversion Hrun; subst;
      by_position Hi i
        ltac:(simpl in Hi; simplify_eq;
              first [ done
                    | by split; [|exists cfg]
                    | exists cfg; split; [done|]; split; [done|]; by left
                    | exists cfg; split; [done|]; split; [done|]; by right ]).
Qed.

Lemma store_calls_of_a_run_witness :
  ∃ cfg, ready Demo.fresh cfg ∧ BUCKET cfg = "updates".
Proof.
  assert (Hi : (main (H := Demo.rejecting) Demo.fresh).1 !! 1%nat
    = Some (PutObjectCall "updates"
              "app1/artifect/324dcf027dd4a30a932c441f365a25e86b173defa4b8e58948253471b81b72cf"
              (bytes_of "hello") 5 "application/octet-stream" None))
    by (vm_compute; reflexivity).
  destruct (store_calls_of_a_run (H := Demo.rejecting) Demo.fresh 1%nat _ Hi)
    as (cfg & Hr & Hb & _).
  exists cfg. split; [exact Hr|]. symmetry. exact Hb.
Defined.

(** ** Keys and checksums *)

Lemma append_cancel_l (s x y : string) : s +:+ x = s +:+ y → x = y.
Proof. induction s as [|c s IH]; simpl; [done|]. intros [= Heq]. by apply IH. Qed.

Lemma byte_of_nibbles (v : byte) :
  Byte.of_N (16 * N.shiftr (Byte.to_N v) 4 + N.land (Byte.to_N v) 15) = Some v.
Proof. destruct v; vm_compute; reflexivity. Qed.

Lemma nibbles_lt (v : byte) :
  (N.shiftr (Byte.to_N v) 4 < 16)%N ∧ (N.land (Byte.to_N v) 15 < 16)%N.
Proof. destruct v; vm_compute; done. Qed.

Lemma fromHexChar_digit (n : N) : (n < 16)%N → Hex.fromHexChar (Hex.digit n) = n.
Proof.
  intros Hn.
  assert (Hcases : n ∈ (N.of_nat <$> seq 0 16)).
  { apply list_elem_of_fmap. exists (N.to_nat n). split; [lia|].
    apply elem_of_seq. lia. }
  simpl in Hcases. repeat (apply elem_of_cons in Hcases as [->|Hcases]; [by vm_compute|]).
  by apply elem_of_nil in Hcases.
Qed.

Lemma EncodeToString_inj (src1 src2 : list byte) :
  Hex.EncodeToString src1 = Hex.EncodeToString src2 → src1 = src2.
Proof.
  revert src2. induction src1 as [|v src1 IH]; intros [|w src2]; simpl; try done.
  intros [= Hhi Hlo Hrest]. f_equal; [|by apply IH].
  destruct (nibbles_lt v) as [Hv1 Hv2]. destruct (nibbles_lt w) as [Hw1 Hw2].
  apply (f_equal Hex.fromHexChar) in Hhi, Hlo.
  rewrite !fromHexChar_digit in Hhi, Hlo by done.
  pose proof (byte_of_nibbles v) as Hv. rewrite Hhi, Hlo, byte_of_nibbles in Hv.
  by injection Hv.
Qed.

(** X15. The object keys cannot be confused: no artifact key is the
    manifest key of the app, and within an app two artifacts share a key
    only if their digests are equal (the hexadecimal text determines the
    bytes it encodes). *)
Theorem object_keys_are_distinct cfg :
  (∀ checksum, artifactKey cfg checksum ≠ manifestKey cfg)
  ∧ (∀ sum1 sum2 : list byte,
       artifactKey cfg (Hex.EncodeToString sum1) = artifactKey cfg (Hex.EncodeToString sum2) →
       sum1 = sum2).
Proof.
  unfold artifactKey, manifestKey. split.
  - intros checksum Heq%append_cancel_l. discriminate Heq.
  - intros sum1 sum2 Heq%append_cancel_l. apply EncodeToString_inj.
    by apply (append_cancel_l "/artifect/").
Qed.

Lemma object_keys_are_distinct_witness :
  artifactKey Demo.freshCfg (Hex.EncodeToString (Blake2b.Sum256 (bytes_of "hello")))
  = "app1/artifect/324dcf027dd4a30a932c441f365a25e86b173defa4b8e58948253471b81b72cf"
  ∧ Blake2b.Sum256 (bytes_of "hello")
    = [ "2"; "M"; xcf; x02; "}"; xd4; xa3; x0a; x93; ","; "D"; x1f; "6"; "Z"; "%"; xe8;
        "k"; x17; "="; xef; xa4; xb8; xe5; x89; "H"; "%"; "4"; "q"; xb8; x1b; "r"; xcf ]%byte.
Proof.
  assert (Hk : artifactKey Demo.freshCfg (Hex.EncodeToString (Blake2b.Sum256 (bytes_of "hello")))
    = "app1/artifect/324dcf027dd4a30a932c441f365a25e86b173defa4b8e58948253471b81b72cf")
    by (vm_compute; reflexivity).
  split; [exact Hk|].
  apply (proj2 (object_keys_are_distinct Demo.freshCfg)).
  refine (eq_trans Hk _). vm_compute. reflexivity.
Defined.

(** X16. The merged manifest never carries a nil on the target path: in
    the document that is uploaded, [channel] and the [artifact] member of
    the target channel are objects, whereas the zero manifest itself would
    be written with a null [channel]. *)
Theorem uploaded_manifest_has_no_null_path `{EncodingJSON} cfg manifest tr manifest' :
  update cfg manifest = (tr, Done manifest') →
  (∃ channels, lookupPath ["channel"] (manifestJSON manifest') = Some (JObject channels))
  ∧ (∃ platforms,
       lookupPath ["channel"; CHANNEL cfg; "artifact"] (manifestJSON manifest')
       = Some (JObject platforms))
  ∧ lookupPath ["channel"] (manifestJSON zeroManifest) = Some JNull.
Proof.
  intros (arts & a & body & Hp & -> & _)%update_Done. split; [|split].
  - rewrite (lookupPath_cons _ _ _ _ (member_channel _)). by eexists.
  - unfold merged. erewrite lookupPath_channel_field by apply lookup_insert_eq.
    rewrite member_artifact. by eexists.
  - reflexivity.
Qed.

Lemma uploaded_manifest_has_no_null_path_witness :
  ∃ tr manifest' platforms,
    update (H := Demo.rejecting) Demo.freshCfg zeroManifest = (tr, Done manifest')
    ∧ lookupPath ["channel"; "stable"; "artifact"] (manifestJSON manifest')
      = Some (JObject platforms).
Proof.
  assert (∃ tr manifest',
    update (H := Demo.rejecting) Demo.freshCfg zeroManifest = (tr, Done manifest'))
    as (tr & manifest' & Hu) by (eexists _, _; vm_compute; reflexivity).
  destruct (uploaded_manifest_has_no_null_path Demo.freshCfg zeroManifest tr manifest' Hu)
    as (_ & [platforms Hpl] & _).
  exists tr, manifest', platforms. split; [exact Hu|exact Hpl].
Defined.

(** X17. When the stored manifest is fetched and decodes, the run goes
    on with exactly the decoded manifest: after the one [GetObject] call
    it does what the merge and the uploads do on that manifest. *)
Theorem decoded_manifest_is_the_start `{EncodingJSON} os tr0 cfg reader manifest :
  setup os = (tr0, Done cfg) →
  GetObject (r2 cfg) (BUCKET cfg) (manifestKey cfg) = Ok reader →
  Decode reader = Ok manifest →
  main os
  = (GetObjectCall (BUCKET cfg) (manifestKey cfg) (Ok reader) :: (update cfg manifest).1,
     (update cfg manifest).2).
Proof.
  intros Hs Hget Hd. rewrite (main_eq _ _ _ Hs), load_eq, Hget, Hd, bind_assoc.
  transitivity (emit (GetObjectCall (BUCKET cfg) (manifestKey cfg) (Ok reader)) ;;
                update cfg manifest).
  { apply bind_ext; intros []. apply bind_ret_l. }
  reflexivity.
Qed.

Lemma decoded_manifest_is_the_start_witness :
  main (H := Demo.reading Demo.published) Demo.stored
  = (GetObjectCall "updates" "app1/manifest.json" (Ok (bytes_of "{"))
       :: (update (H := Demo.reading Demo.published) Demo.storedCfg Demo.published).1,
     (update (H := Demo.reading Demo.published) Demo.storedCfg Demo.published).2).
Proof.
  apply (decoded_manifest_is_the_start (H := Demo.reading Demo.published) Demo.stored []
           Demo.storedCfg (bytes_of "{") Demo.published); vm_compute; reflexivity.
Defined.
